(** * SANnav utilities: MAPS export converter and login probe

    A shallow embedding of [json_maps_to_excel.py] and [login_test.py].
    Python values are an inductive type, dictionaries are association lists in
    insertion order (the order [dict.items()] iterates in), and every
    operation that can raise in Python returns in the exception monad [exc].
    Calls into the external libraries (brcdapi, brcddb, openpyxl) are either
    recorded in the worksheet / trace they act on, or taken as parameters. *)

From Stdlib Require Import ZArith List String Ascii Bool Lia DecimalString.
From Stdlib Require DecimalPos DecimalZ.
Import ListNotations.
Open Scope string_scope.
Open Scope Z_scope.

(** ** Python values and built-ins *)

Module Py.

(** The module's functions that its tables reference with an ['m'] key. *)
Inductive func : Type :=
| F_place_holder
| F_generic_list
| F_maps_page.

#[warning="-register-all"]
Inductive value : Type :=
| VNone
| VBool (b : bool)
| VInt (z : Z)
| VFloat (bits : Z)                  (* a binary64, by its bit pattern *)
| VStr (s : string)
| VList (l : list value)
| VTuple (l : list value)
| VDict (items : list (string * value))
| VFunc (f : func)
| VObj (cls tag : string).           (* an opaque library object: class, identity *)

Definition dict : Type := list (string * value).

(** Exceptions the modelled code can raise. *)
Inductive error : Type :=
| AttributeError
| KeyError
| TypeError
| RecursionError.

Inductive exc (A : Type) : Type :=
| Ok (a : A)
| Raise (e : error).
Arguments Ok {A} a.
Arguments Raise {A} e.

Definition bind {A B : Type} (m : exc A) (k : A -> exc B) : exc B :=
  match m with
  | Ok a => k a
  | Raise e => Raise e
  end.

Notation "x <- m ;; k" := (bind m (fun x => k))
  (at level 61, m at next level, right associativity).
Notation "' p <- m ;; k" := (bind m (fun p => k))
  (at level 61, p pattern, m at next level, right associativity).

Definition is_ok {A : Type} (m : exc A) : bool :=
  match m with Ok _ => true | Raise _ => false end.

(** [d.get(k)] without the default: [None] when the key is absent. *)
Fixpoint lookup (k : string) (d : dict) : option value :=
  match d with
  | [] => None
  | (k', v) :: d' => if String.eqb k k' then Some v else lookup k d'
  end.

(** [d.get(k)]: Python's default is the value [None]. *)
Definition dict_get (k : string) (d : dict) : value :=
  match lookup k d with
  | Some v => v
  | None => VNone
  end.

(** [d[k]]. *)
Definition getitem (k : string) (d : dict) : exc value :=
  match lookup k d with
  | Some v => Ok v
  | None => Raise KeyError
  end.

(** [d[k] = v]: an existing key keeps its position, a new key goes last. *)
Fixpoint setitem (k : string) (v : value) (d : dict) : dict :=
  match d with
  | [] => [(k, v)]
  | (k', v') :: d' =>
      if String.eqb k k' then (k, v) :: d' else (k', v') :: setitem k v d'
  end.

(** [x is None]. *)
Definition is_None (v : value) : bool :=
  match v with VNone => true | _ => false end.

(** [v.get(k)] on an arbitrary object: only dictionaries have [get]. *)
Definition attr_get (v : value) (k : string) : exc value :=
  match v with
  | VDict d => Ok (dict_get k d)
  | _ => Raise AttributeError
  end.

(** [isinstance(v, list)]. *)
Definition is_list (v : value) : bool :=
  match v with VList _ => true | _ => false end.

(** [str(type(v))]. *)
Definition type_str (v : value) : string :=
  match v with
  | VNone => "<class 'NoneType'>"
  | VBool _ => "<class 'bool'>"
  | VInt _ => "<class 'int'>"
  | VFloat _ => "<class 'float'>"
  | VStr _ => "<class 'str'>"
  | VList _ => "<class 'list'>"
  | VTuple _ => "<class 'tuple'>"
  | VDict _ => "<class 'dict'>"
  | VFunc _ => "<class 'function'>"
  | VObj cls _ => "<class '" ++ cls ++ "'>"
  end.

(** [for x in v]: the elements a [for] loop over [v] visits. *)
Definition py_iter (v : value) : exc (list value) :=
  match v with
  | VList l | VTuple l => Ok l
  | VStr s => Ok (map (fun c => VStr (String c EmptyString)) (list_ascii_of_string s))
  | VDict d => Ok (map (fun kv => VStr (fst kv)) d)
  | _ => Raise TypeError
  end.

(** [d.get(k)] for a key that is an arbitrary object.  The dictionaries of
    this program only have [str] keys, so another hashable key is absent;
    a list or a dictionary is unhashable. *)
Definition get_obj (k : value) (d : dict) : exc value :=
  match k with
  | VStr s => Ok (dict_get s d)
  | VList _ | VDict _ => Raise TypeError
  | _ => Ok VNone
  end.

(** [a + b] for a [str] [a]. *)
Definition str_add (a : string) (b : value) : exc string :=
  match b with
  | VStr s => Ok (a ++ s)
  | _ => Raise TypeError
  end.

(** The nesting depth of dictionaries in a value. *)
Fixpoint depth (v : value) : nat :=
  match v with
  | VDict items =>
      S ((fix depth_items (l : list (string * value)) : nat :=
            match l with
            | [] => O
            | (_, x) :: l' => Nat.max (depth x) (depth_items l')
            end) items)
  | _ => O
  end.

(** The elements of an iterable that [sep.join] accepts: all must be [str]. *)
Fixpoint strings_of (l : list value) : exc (list string) :=
  match l with
  | [] => Ok []
  | VStr s :: l' => ss <- strings_of l' ;; Ok (s :: ss)
  | _ :: _ => Raise TypeError
  end.

(** [sep.join(l)] for a list or tuple [l]. *)
Definition str_join (sep : string) (l : list value) : exc string :=
  ss <- strings_of l ;; Ok (String.concat sep ss).

(** [s.split(sep)] for a one-character separator. *)
Fixpoint str_split (sep : ascii) (s : string) : list string :=
  match s with
  | EmptyString => [EmptyString]
  | String c s' =>
      if Ascii.eqb c sep then EmptyString :: str_split sep s'
      else match str_split sep s' with
           | [] => [String c EmptyString]
           | w :: ws => String c w :: ws
           end
  end.

(** [s.replace(old, new)] for a non-empty [old]: occurrences are replaced
    left to right without overlap.  [skip] counts the characters of a
    matched occurrence that are still to be dropped. *)
Fixpoint replace_from (old new : string) (skip : nat) (s : string) : string :=
  match s with
  | EmptyString => EmptyString
  | String c s' =>
      match skip with
      | S n => replace_from old new n s'
      | O =>
          if String.prefix old s
          then new ++ replace_from old new (Nat.pred (String.length old)) s'
          else String c (replace_from old new O s')
      end
  end.

Definition str_replace (old new s : string) : string :=
  replace_from old new O s.

(** [old in s]. *)
Fixpoint occurs (old s : string) : bool :=
  match s with
  | EmptyString => String.prefix old s
  | String _ s' => String.prefix old s || occurs old s'
  end.

(** [str(n)] for an integer. *)
Definition str_of_Z (n : Z) : string :=
  NilZero.string_of_int (Z.to_int n).

End Py.
Export Py.

(** ** json_maps_to_excel.py *)

Module JsonMapsToExcel.

(** Objects of brcdapi.excel_fonts. *)
Definition font_type (x : string) : value := VObj "openpyxl.styles.fonts.Font" x.
Definition align_type (x : string) : value :=
  VObj "openpyxl.styles.alignment.Alignment" x.

Definition _link_font := font_type "link".
Definition _hdr_1_font := font_type "hdr_1".
Definition _hdr_2_font := font_type "hdr_2".
Definition _bold_font := font_type "bold".
Definition _std_font := font_type "std".
Definition _align_wrap := align_type "wrap".
Definition _align_wrap_c := align_type "wrap_center".
Definition _align_wrap_vc := align_type "wrap_vert_center".

(** U+221A, the square-root sign used as a checkmark, in UTF-8. *)
Definition checkmark : string :=
  String (ascii_of_nat 226) (String (ascii_of_nat 136)
    (String (ascii_of_nat 154) EmptyString)).

Definition _tc_header (d : string) (c : Z) (ha da : string) : value :=
  VDict [("d", VStr d); ("c", VInt c); ("ha", VStr ha); ("da", VStr da)].

Definition _tc_headers : dict :=
  [ ("policyName", _tc_header "Policy" 32 "wrap" "wrap");
    ("virtualSwitchId", _tc_header "FID" 5 "wrap" "wrap");
    ("tags", _tc_header "Tags" 32 "wrap" "wrap");
    ("description", _tc_header "Description" 32 "wrap" "wrap");
    ("isActive", _tc_header "Active" 5 "wrap_vert_center" "wrap_center");
    ("isCustom", _tc_header "Custom" 5 "wrap_vert_center" "wrap_center") ].

Definition _place_holder (v : value) : exc value := Ok v.

Definition _generic_list (v : value) : exc value :=
  match v with
  | VList l => s <- str_join ", " l ;; Ok (VStr s)
  | _ => Ok (VStr ("NOT LIST (" ++ type_str v ++ ")"))
  end.

(** A leaf of [_rule_conv] without and with a conversion method. *)
Definition col (d : string) (c : Z) (ha da : value) : value :=
  VDict [("d", VStr d); ("c", VInt c); ("ha", ha); ("da", da)].
Definition colm (d : string) (c : Z) (m : func) (ha da : value) : value :=
  VDict [("d", VStr d); ("c", VInt c); ("m", VFunc m); ("ha", ha); ("da", da)].
Definition names (l : list string) : value := VTuple (map VStr l).

Definition _rule_conv : dict :=
  [ ("o", names ["groupName"; "groupType"; "isDefaultGroup"; "ruleName";
                 "ruleType"; "isDefaultRule"; "baseRuleName"; "severityType";
                 "quietTime"; "measureDetails"]);
    ("groupName", col "Group Name" 32 _align_wrap _align_wrap);
    ("groupType", colm "Group Type" 5 F_place_holder _align_wrap_vc _align_wrap_c);
    ("isDefaultGroup", col "Default Group" 5 _align_wrap_vc _align_wrap_c);
    ("ruleName", col "Rule Name" 38 _align_wrap _align_wrap);
    ("ruleType", colm "Rule Type" 5 F_place_holder _align_wrap_vc _align_wrap_c);
    ("isDefaultRule", col "Default Rule" 5 _align_wrap_vc _align_wrap_c);
    ("baseRuleName", col "Base Rule Name" 32 _align_wrap _align_wrap);
    ("severityType", colm "Severity Type" 5 F_place_holder _align_wrap_vc _align_wrap_c);
    ("quietTime", col "Quiet Time" 8 _align_wrap _align_wrap);
    ("measureDetails", VDict
      [ ("o", names ["measureId"; "thresholdDtls"; "timeBaseDtls"; "swActions"]);
        ("measureId", col "Measure" 24 _align_wrap _align_wrap);
        ("thresholdDtls", VDict
          [ ("o", names ["operator"; "thresholdList"; "thresholdValue"]);
            ("operator", colm "Operator" 5 F_place_holder _align_wrap_vc _align_wrap_c);
            ("thresholdList", colm "Threshold List" 12 F_generic_list _align_wrap _align_wrap);
            ("thresholdValue", col "Threshold Value" 18 _align_wrap_c _align_wrap_c) ]);
        ("timeBaseDtls", VDict
          [ ("o", names ["timeBaseValue"]);
            ("timeBaseValue", col "Time Base Value" 5 _align_wrap_vc _align_wrap_c) ]);
        ("swActions", VDict
          [ ("o", names ["rasLogEvent"; "snmpTrap"; "email"; "portDecommission";
                         "fence"; "sfpStatusMarginal"; "fms"; "sddq"; "unQuarantine";
                         "toggle"; "switchStatusCritical"; "switchStatusMarginal";
                         "reBalance"; "fpin"]);
            ("rasLogEvent", col "RAS Log" 5 _align_wrap_vc _align_wrap_c);
            ("snmpTrap", col "SNMP Trap" 5 _align_wrap_vc _align_wrap_c);
            ("email", col "email" 5 _align_wrap_vc _align_wrap_c);
            ("portDecommission", col "Decommission" 5 _align_wrap_vc _align_wrap_c);
            ("fence", col "Fence" 5 _align_wrap_vc _align_wrap_c);
            ("sfpStatusMarginal", col "SFP Marginal" 5 _align_wrap_vc _align_wrap_c);
            ("fms", col "FMS" 5 _align_wrap_vc _align_wrap_c);
            ("sddq", col "SDDQ" 5 _align_wrap_vc _align_wrap_c);
            ("unQuarantine", col "Un-quarantine" 5 _align_wrap_vc _align_wrap_c);
            ("toggle", col "Toggle" 5 _align_wrap_vc _align_wrap_c);
            ("switchStatusCritical", col "Switch Critical" 5 _align_wrap_vc _align_wrap_c);
            ("switchStatusMarginal", col "Switch Marginal" 5 _align_wrap_vc _align_wrap_c);
            ("reBalance", col "Re-balance" 5 _align_wrap_vc _align_wrap_c);
            ("fpin", col "FPIN" 5 _align_wrap_vc _align_wrap_c) ]) ]) ].

(** The [for k in obj['o']] loop of [_descriptors], with [r_list] as its
    accumulator and [rec] the recursive call.  [copy.deepcopy] is the
    identity on immutable values. *)
Fixpoint _descriptors_loop (rec : dict -> string -> exc (list dict))
    (obj : dict) (base_ref : string) (keys : list value) (r_list : list dict)
  : exc (list dict) :=
  match keys with
  | [] => Ok r_list
  | k :: keys' =>
      d <- get_obj k obj ;;
      match d with
      | VDict d =>
          if negb (is_None (dict_get "c" d)) then
            ref <- str_add base_ref k ;;
            _descriptors_loop rec obj base_ref keys'
              (r_list ++ [setitem "k" (VStr ref) d])%list
          else
            ref <- str_add base_ref k ;;
            sub <- rec d (ref ++ "/") ;;
            _descriptors_loop rec obj base_ref keys' (r_list ++ sub)%list
      | _ => _descriptors_loop rec obj base_ref keys' r_list
      end
  end.

(** [_descriptors], with the call depth still available as [fuel]. *)
Fixpoint _descriptors_rec (fuel : nat) (obj : dict) (base_ref : string)
  : exc (list dict) :=
  match fuel with
  | O => Raise RecursionError
  | S fuel' =>
      o <- getitem "o" obj ;;
      keys <- py_iter o ;;
      _descriptors_loop (_descriptors_rec fuel') obj base_ref keys []
  end.

(** A finite dictionary nests to a finite depth, so one call more than its
    depth never exhausts the stack. *)
Definition _descriptors (obj : dict) (base_ref : string) : exc (list dict) :=
  _descriptors_rec (S (depth (VDict obj))) obj base_ref.

(** The [while len(kl) > 0] loop of [_rule_value]. *)
Fixpoint _rule_value_walk (kl : list string) (v0 : value) : exc value :=
  match kl with
  | [] => Ok v0
  | k :: kl' => v <- attr_get v0 k ;; _rule_value_walk kl' v
  end.

(** [m(v0)] for the object [m] found under a descriptor's ['m']. *)
Definition call (m : value) (v0 : value) : exc value :=
  match m with
  | VFunc F_place_holder => _place_holder v0
  | VFunc F_generic_list => _generic_list v0
  | _ => Raise TypeError
  end.

Definition _rule_value (d : dict) (rule : value) : exc value :=
  if is_None (dict_get "k" d) then Ok VNone
  else
    kl <- match dict_get "k" d with
          | VStr s => Ok (str_split "/" s)
          | _ => Raise AttributeError
          end ;;
    v0 <- _rule_value_walk kl rule ;;
    if is_None (dict_get "m" d) then Ok v0 else call (dict_get "m" d) v0.

(** *** The workbook

    openpyxl's worksheet, as far as this module drives it: the cells written
    through [excel_util.cell_update], the column widths, the merged ranges
    and the frozen pane.  A worksheet is a mutable object owned by its
    workbook; nothing reads the workbook between [create_sheet] and the last
    update of the sheet, so a sheet is put in the workbook once it is
    finished.  Page setup is not modelled. *)

Record cell : Type := mk_cell {
  cell_row : Z;
  cell_col : Z;
  cell_buf : value;
  cell_font : value;
  cell_align : value;
  cell_link : option string
}.

Record worksheet : Type := mk_sheet {
  ws_title : string;
  ws_cells : list cell;
  ws_widths : list (Z * value);
  ws_merged : list (Z * Z * Z * Z);
  ws_freeze : string
}.

Definition workbook : Type := list worksheet.

(** [list.insert(i, x)] for [i >= 0]: past the end it appends. *)
Fixpoint insert_at {A : Type} (i : nat) (x : A) (l : list A) : list A :=
  match i, l with
  | O, _ => x :: l
  | S i', [] => [x]
  | S i', y :: l' => y :: insert_at i' x l'
  end.

(** [wb.create_sheet(index=sheet_i, title=...)], with the finished sheet. *)
Definition create_sheet (wb : workbook) (sheet_i : Z) (sheet : worksheet)
  : workbook :=
  insert_at (Z.to_nat sheet_i) sheet wb.

(** [v[k]] on an arbitrary object of this program. *)
Definition subscript (v : value) (k : string) : exc value :=
  match v with
  | VDict d => getitem k d
  | _ => Raise TypeError
  end.

Definition as_int (v : value) : exc Z :=
  match v with
  | VInt z => Ok z
  | _ => Raise TypeError
  end.

Definition as_str (v : value) : exc string :=
  match v with
  | VStr s => Ok s
  | _ => Raise TypeError
  end.

(** The [for d in headers] loop of [_create_sheet]: it sets the column
    width, writes the header cell and records the column in the descriptor
    itself ([d.update(dict(col=col))]), which the caller reads back. *)
Fixpoint _create_sheet_headers (headers : list dict) (row col : Z)
    (sheet : worksheet) : exc (worksheet * list dict) :=
  match headers with
  | [] => Ok (sheet, [])
  | d :: headers' =>
      c <- getitem "c" d ;;
      dd <- getitem "d" d ;;
      ha <- getitem "ha" d ;;
      let sheet' :=
        mk_sheet (ws_title sheet)
                 (ws_cells sheet ++ [mk_cell row col dd _hdr_2_font ha None])%list
                 (ws_widths sheet ++ [(col, c)])%list
                 (ws_merged sheet) (ws_freeze sheet) in
      ' (sheet'', ds) <- _create_sheet_headers headers' row (col + 1) sheet' ;;
      Ok (sheet'', setitem "col" (VInt col) d :: ds)
  end.

Definition _create_sheet (tc sheet_name : string) (sheet_title : value)
    (headers : list dict) : exc (worksheet * list dict) :=
  let row := 1 in
  let col := 1 in
  let contents :=
    mk_cell row col (VStr "Contents") _link_font VNone (Some ("#" ++ tc ++ "!A1")) in
  let col := col + 1 in
  let merged := (row, col, row, Z.of_nat (List.length headers) - 1) in
  let title := mk_cell row col sheet_title _hdr_1_font VNone None in
  let row := row + 2 in
  let col := 1 in
  let sheet :=
    mk_sheet sheet_name [contents; title] [] [merged] ("A" ++ str_of_Z (row + 1)) in
  _create_sheet_headers headers row col sheet.

(** The body of the [for d in descriptor_list] loop of [_maps_page] up to
    the cell update: what is written for descriptor [d] of [rule]. *)
Definition _maps_page_buf (d : dict) (rule : value) : exc value :=
  v <- _rule_value d rule ;;
  if negb (is_None v) then
    match v with
    | VBool b => Ok (VStr (if b then checkmark else ""))
    | VList l | VTuple l => s <- str_join ", " l ;; Ok (VStr s)
    | _ => Ok v
    end
  else Ok VNone.

(** The [for d in descriptor_list] loop. *)
Fixpoint _maps_page_rule (descriptor_list : list dict) (rule : value) (row : Z)
    (cells : list cell) : exc (list cell) :=
  match descriptor_list with
  | [] => Ok cells
  | d :: descriptor_list' =>
      buf <- _maps_page_buf d rule ;;
      c <- getitem "col" d ;;
      c <- as_int c ;;
      da <- getitem "da" d ;;
      _maps_page_rule descriptor_list' rule row
        (cells ++ [mk_cell row c buf _std_font da None])%list
  end.

(** The [for rule in rule_list] loop. *)
Fixpoint _maps_page_rows (descriptor_list : list dict) (rule_list : list value)
    (row : Z) (cells : list cell) : exc (list cell) :=
  match rule_list with
  | [] => Ok cells
  | rule :: rule_list' =>
      cells' <- match rule with
                | VStr _ => Ok (cells ++ [mk_cell row 1 rule _bold_font VNone None])%list
                | _ => _maps_page_rule descriptor_list rule row cells
                end ;;
      _maps_page_rows descriptor_list rule_list' (row + 1) cells'
  end.

Definition _maps_page (wb : workbook) (tc sheet_name : string) (sheet_i : Z)
    (sheet_title : value) (rule_list : list value) : exc workbook :=
  descriptor_list <- _descriptors _rule_conv "" ;;
  ' (sheet, descriptor_list) <-
      _create_sheet tc sheet_name sheet_title descriptor_list ;;
  cells <- _maps_page_rows descriptor_list rule_list 4 (ws_cells sheet) ;;
  Ok (create_sheet wb sheet_i
        (mk_sheet (ws_title sheet) cells (ws_widths sheet) (ws_merged sheet)
                  (ws_freeze sheet))).

Definition page (t n : string) : value :=
  VDict [("t", VStr t); ("n", VStr n); ("m", VFunc F_maps_page)].

Definition _page : dict :=
  [ ("rulesUnderPortCategory", page "Port Rules" "port");
    ("rulesUnderSwitchStatusCategory", page "Switch Status Rules" "switch_status");
    ("rulesUnderFabricCategory", page "Fabric Rules" "fabric");
    ("rulesUnderFruCategory", page "FRU Rules" "FRU");
    ("rulesUnderSecurityCategory", page "Security Rules" "security");
    ("rulesUnderResourceCategory", page "Resource Rules" "resource");
    ("rulesUnderTrafficOrFlowsCategory", page "Traffic and Flow Rules" "traffic");
    ("rulesUnderFpiCategory", page "Fabric Performance Impact Rules" "fpi");
    ("rulesUnderExtensionTunnelCategory", page "Extension Tunnel Rules" "ext_tunnel");
    ("rulesUnderExtensionGePortCategory", page "GE Port Rules" "ext_ge_port");
    ("rulesUnderBackendPortCategory", page "Backend Port Rules" "backend");
    ("rulesUnderIoLatencyCategory", page "I/O Latency Rules" "latency");
    ("rulesUnderIoPerformanceCategory", page "Performance Rules" "performance");
    ("rulesUnderIoSCSICategory", page "SCSI Rules" "scsi");
    ("rulesUnderAmpHealthCategory", page "AMP Health Rules" "amp_health");
    ("rulesUnderAmpResourceCategory", page "AMP Resource Rules" "amp_resource");
    ("rulesUnderIoHealthCategory", page "I/O Health Rules" "io_health");
    ("uncategorizedDefaultRules", page "Uncategorized Default Rules" "uncat_dflt") ].

(** [action(wb, tc, sheet_name, sheet_i, sheet_title, rule_list)] for the
    object [action] taken from a table. *)
Definition call_action (action : value) (wb : workbook) (tc sheet_name : string)
    (sheet_i : Z) (sheet_title : value) (rule_list : list value) : exc workbook :=
  match action with
  | VFunc F_maps_page => _maps_page wb tc sheet_name sheet_i sheet_title rule_list
  | _ => Raise TypeError
  end.

(** The [try] block of [_write_report]. *)
Definition _write_report_try (k1 : string) (sheet_index : Z)
  : exc (string * value * value) :=
  p <- getitem k1 _page ;;
  n <- subscript p "n" ;;
  n <- as_str n ;;
  let sheet_name := n ++ "_" ++ str_of_Z sheet_index in
  p <- getitem k1 _page ;;
  sheet_title <- subscript p "t" ;;
  p <- getitem k1 _page ;;
  action <- subscript p "m" ;;
  Ok (sheet_name, sheet_title, action).

(** The [try] block with its [except KeyError] handler. *)
Definition _write_report_sheet (k1 : string) (sheet_index : Z)
  : exc (string * value * value) :=
  match _write_report_try k1 sheet_index with
  | Raise KeyError =>
      Ok ("unknown_" ++ str_of_Z sheet_index, VStr k1, VFunc F_maps_page)
  | r => r
  end.

(** *** The report *)

(** What [_write_report] hands to [report_utils.title_page] and
    [excel_util.save_report]. *)
Record report_file : Type := mk_report {
  rep_wb : workbook;
  rep_tc_page : string;
  rep_t_content : list dict;
  rep_tc_widths : list value;
  rep_name : string
}.

Section Report.

(** brcdapi.gen_util.sort_obj_str, excel_util.new_report and
    brcddb.brcddb_common.EXIT_STATUS_OK belong to the external libraries. *)
Variable sort_obj_str : value -> list string -> exc (list value).
Variable new_report : workbook.
Variable EXIT_STATUS_OK : Z.

(** [for v in _tc_headers.values()] of the table-of-contents header. *)
Fixpoint _write_report_hdr (hdrs : dict) (t_content : list dict) (max_cols : Z)
  : exc (list dict * Z) :=
  match hdrs with
  | [] => Ok (t_content, max_cols)
  | (_, v) :: hdrs' =>
      ha <- subscript v "ha" ;;
      d <- subscript v "d" ;;
      _write_report_hdr hdrs'
        (t_content ++ [[("new_row", VBool false); ("font", VStr "hdr_2");
                        ("align", ha); ("disp", d)]])%list
        (max_cols + 1)
  end.

(** [for k, v in _tc_headers.items()] of one policy: the sub-header. *)
Fixpoint _write_report_sub_hdr (hdrs : dict) (obj : value) (t_content : list dict)
  : exc (list dict) :=
  match hdrs with
  | [] => Ok t_content
  | (k, v) :: hdrs' =>
      buf <- attr_get obj k ;;
      let buf := match buf with
                 | VBool b => VStr (if b then checkmark else "")
                 | VStr _ => buf
                 | _ => VStr ""
                 end in
      da <- subscript v "da" ;;
      _write_report_sub_hdr hdrs' obj
        (t_content ++ [[("new_row", VBool false); ("font", VStr "hdr_2");
                        ("align", da); ("disp", buf)]])%list
  end.

(** The link row of the table of contents for one sheet. *)
Definition link_rows (max_cols : Z) (sheet_title : value) (sheet_name : string)
  : list dict :=
  [ [("merge", VInt (max_cols - 3)); ("font", VStr "link"); ("align", VStr "wrap");
     ("disp", sheet_title); ("hyper", VStr ("#" ++ sheet_name ++ "!A1"))] ].

Definition blank_cell : dict :=
  [("new_row", VBool false); ("font", VStr "std"); ("align", VStr "wrap");
   ("disp", VStr "")].

(** The state the [for k1, v1 in content.items()] loop updates. *)
Record cat_state : Type := mk_cat {
  st_wb : workbook;
  st_t_content : list dict;
  st_all_l : list value;
  st_sheet_index : Z
}.

(** One iteration of [for k1, v1 in content.items()]. *)
Definition _write_report_category (tc_page : string) (max_cols : Z)
    (st : cat_state) (k1 : string) (v1 : value) : exc cat_state :=
  let t_content := (st_t_content st ++ [blank_cell])%list in
  ' (sheet_name, sheet_title, action) <-
      _write_report_sheet k1 (st_sheet_index st) ;;
  let t_content := (t_content ++ link_rows max_cols sheet_title sheet_name)%list in
  let all_l := (st_all_l st ++ [VStr k1])%list in
  sorted_l <- sort_obj_str v1 ["groupName"; "ruleName"] ;;
  let all_l := (all_l ++ sorted_l)%list in
  wb <- call_action action (st_wb st) tc_page sheet_name (st_sheet_index st)
          sheet_title sorted_l ;;
  Ok (mk_cat wb t_content all_l (st_sheet_index st + 1)).

Fixpoint _write_report_categories (tc_page : string) (max_cols : Z)
    (items : dict) (st : cat_state) : exc cat_state :=
  match items with
  | [] => Ok st
  | (k1, v1) :: items' =>
      st' <- _write_report_category tc_page max_cols st k1 v1 ;;
      _write_report_categories tc_page max_cols items' st'
  end.

(** [content.items()]. *)
Definition items (content : value) : exc dict :=
  match content with
  | VDict d => Ok d
  | _ => Raise AttributeError
  end.

(** One iteration of [for obj in json_obj]. *)
Definition _write_report_policy (tc_page : string) (max_cols : Z)
    (wb : workbook) (t_content : list dict) (obj : value)
  : exc (workbook * list dict) :=
  let sheet_index := 0 in
  t_content <- _write_report_sub_hdr _tc_headers obj t_content ;;
  let t_content := (t_content ++ [[]])%list in
  let all_l := [] in
  c <- attr_get obj "categoryDetailsInfo" ;;
  let content := if is_None c then VDict [] else c in
  its <- items content ;;
  st <- _write_report_categories tc_page max_cols its
          (mk_cat wb t_content all_l sheet_index) ;;
  let sheet_name := "all_" ++ str_of_Z (st_sheet_index st) in
  let sheet_title := VStr "All" in
  let t_content :=
    (st_t_content st ++ [blank_cell] ++ link_rows max_cols sheet_title sheet_name)%list in
  wb <- _maps_page (st_wb st) tc_page sheet_name (st_sheet_index st) sheet_title
          (st_all_l st) ;;
  Ok (wb, t_content).

Fixpoint _write_report_policies (tc_page : string) (max_cols : Z)
    (objs : list value) (wb : workbook) (t_content : list dict)
  : exc (workbook * list dict) :=
  match objs with
  | [] => Ok (wb, t_content)
  | obj :: objs' =>
      ' (wb', t_content') <- _write_report_policy tc_page max_cols wb t_content obj ;;
      _write_report_policies tc_page max_cols objs' wb' t_content'
  end.

(** [[d['c'] for d in _tc_headers.values()]]. *)
Fixpoint tc_widths (hdrs : dict) : exc (list value) :=
  match hdrs with
  | [] => Ok []
  | (_, d) :: hdrs' =>
      c <- subscript d "c" ;; cs <- tc_widths hdrs' ;; Ok (c :: cs)
  end.

Definition _write_report (json_obj : value) (report : string)
  : exc (report_file * Z) :=
  let wb := new_report in
  let tc_page := "MAPS_Policies" in
  let t_content :=
    [ [("merge", VInt 6); ("font", VStr "hdr_1"); ("align", VStr "wrap");
       ("disp", VStr "MAPS Policies and Rules Report")]; [] ] in
  let max_cols := 0 in
  ' (t_content, max_cols) <- _write_report_hdr _tc_headers t_content max_cols ;;
  let t_content := (t_content ++ [[]])%list in
  objs <- py_iter json_obj ;;
  ' (wb, t_content) <- _write_report_policies tc_page max_cols objs wb t_content ;;
  widths <- tc_widths _tc_headers ;;
  Ok (mk_report wb tc_page t_content widths report, EXIT_STATUS_OK).

End Report.

(** *** The command line *)

(** What [argparse] hands over: [-i] is required, the others are optional. *)
Record args : Type := mk_args {
  arg_i : string;
  arg_o : option string;
  arg_log : option string;
  arg_nl : bool
}.

(** Calls into brcdapi.log. *)
Inductive log_event : Type :=
| open_log (folder : option string)
| log (ml : list string) (echo : bool).

Definition _DEBUG : bool := false.
Definition _DEBUG_i : string := "rene/mod_moderate_policy_48".
Definition _DEBUG_o : option string := None.
Definition _DEBUG_log : option string := Some "_logs".
Definition _DEBUG_nl : bool := false.          (* [None], tested with [not] *)
Definition __version__ : string := "4.0.1".

(** [str(x)] for an optional string. *)
Definition str_of_opt (x : option string) : string :=
  match x with
  | Some s => s
  | None => "None"
  end.

Section Input.

(** brcdapi.file.full_file_name(file, extension). *)
Variable full_file_name : string -> string -> string.

(** [_get_input]: the log calls it makes, and the pair it returns. *)
Definition _get_input (a : args) : list log_event * (string * string) :=
  let '(args_i, args_o, args_log, args_nl) :=
    if _DEBUG
    then (full_file_name _DEBUG_i ".json", _DEBUG_o, _DEBUG_log, _DEBUG_nl)
    else (full_file_name (arg_i a) ".json", arg_o a, arg_log a, arg_nl a) in
  let trace := if negb args_nl then [open_log args_log] else [] in
  let ml := [ "json_maps_to_excel.py version: " ++ __version__;
              "Input file:  " ++ args_i;
              "Output file: " ++ str_of_opt args_o;
              "" ] in
  let ml := if _DEBUG then "WARNING!!! Debug is enabled" :: ml else ml in
  let trace := (trace ++ [log ml true])%list in
  (trace,
   (args_i,
    match args_o with
    | None => str_replace ".json" ".xlsx" args_i
    | Some o => o
    end)).

End Input.

Section Main.

(** brcdapi.file.full_file_name and read_dump ([None] when the file cannot
    be read), brcdapi.gen_util.sort_obj_str, excel_util.new_report and the
    statuses of brcddb.brcddb_common. *)
Variable full_file_name : string -> string -> string.
Variable read_dump : string -> value.
Variable sort_obj_str : value -> list string -> exc (list value).
Variable new_report : workbook.
Variable EXIT_STATUS_OK : Z.
Variable EXIT_STATUS_ERROR : Z.

(** [pseudo_main]: the log calls made, and either the status returned
    without a report or what [_write_report] gives. *)
Definition pseudo_main (a : args)
  : list log_event * exc (option report_file * Z) :=
  let '(trace, (in_f, report)) := _get_input full_file_name a in
  let obj := read_dump in_f in
  if is_None obj then (trace, Ok (None, EXIT_STATUS_ERROR))
  else
    (trace,
     ' (rep, status) <- _write_report sort_obj_str new_report EXIT_STATUS_OK obj report ;;
     Ok (Some rep, status)).

End Main.

End JsonMapsToExcel.

(** ** login_test.py *)

Module LoginTest.

Definition _DOC_STRING : bool := false.
Definition _DEBUG : bool := false.
Definition _DEBUG_IP : string := "xx.xxx.x.xxx".
Definition _DEBUG_ID : string := "Administrator".
Definition _DEBUG_PW : string := "password".
Definition _DEBUG_SEC : option string := Some "self".
Definition _DEBUG_LOG : option string := Some "_logs".
Definition _DEBUG_NL : bool := true.

(** The command line: [-ip], [-id], [-pw], [-s], [-log], [-nl]. *)
Record args : Type := mk_args {
  arg_ip : string;
  arg_id : string;
  arg_pw : string;
  arg_s : option string;
  arg_log : option string;
  arg_nl : bool
}.

Definition parse_args (a : args) : args :=
  if _DEBUG
  then mk_args _DEBUG_IP _DEBUG_ID _DEBUG_PW _DEBUG_SEC _DEBUG_LOG _DEBUG_NL
  else a.

Section Probe.

(** brcdapi.sannav_auth and brcdapi.util: what the server answers is not
    this program's to decide, so the library is a parameter.  [obj] is
    whatever [login] and [logout] return. *)
Variable obj : Type.
Variable login : string -> string -> string -> string -> obj.
Variable logout : obj -> obj.
Variable is_error : obj -> bool.
Variable formatted_error_msg : obj -> string.
Variable mask_ip_addr : string -> bool -> string.

(** brcddb.brcddb_common. *)
Variable EXIT_STATUS_OK : Z.
Variable EXIT_STATUS_API_ERROR : Z.

(** The calls the probe makes, in order. *)
Inductive event : Type :=
| open_log (folder : option string)
| log (msg : list string) (echo : bool)
| close_log (msg : string)
| call_login (user_id pw ip sec : string)
| call_logout (session : obj).

Definition psuedo_main (a : args) : list event * Z :=
  let a := parse_args a in
  let sec := match arg_s a with None => "none" | Some s => s end in
  let ml := if _DEBUG then ["WARNING!!! Debug is enabled"] else [] in
  let ml := (ml ++ [("IP:          " ++ mask_ip_addr (arg_ip a) true)%string])%list in
  let ml := (ml ++ [("ID:          " ++ arg_id a)%string])%list in
  let ml := (ml ++ [("security:    " ++ sec)%string])%list in
  let t := [open_log (arg_log a); log ml true] in
  let t := (t ++ [log ["Attempting login"] true;
                  call_login (arg_id a) (arg_pw a) (arg_ip a) sec])%list in
  let session := login (arg_id a) (arg_pw a) (arg_ip a) sec in
  if is_error session then
    ((t ++ [log ["Login failed. Error message is:"] true;
            log [formatted_error_msg session] true])%list,
     EXIT_STATUS_API_ERROR)
  else
    let t := (t ++ [log ["Login succeeded. Attempting logout"] true;
                    call_logout session])%list in
    let o := logout session in
    if is_error o then
      ((t ++ [log ["Logout failed. Error message is:"] true;
              log [formatted_error_msg o] true])%list,
       -1)
    else
      ((t ++ [log ["Logout succeeded."] true; close_log ""])%list,
       EXIT_STATUS_OK).

(** The module body: the calls made and the argument of [exit]. *)
Definition main (a : args) : list event * Z :=
  let _ec := 0 in
  if _DOC_STRING then ([], _ec) else psuedo_main a.

End Probe.

Arguments open_log {obj} folder.
Arguments log {obj} msg echo.
Arguments close_log {obj} msg.
Arguments call_login {obj} user_id pw ip sec.
Arguments call_logout {obj} session.

End LoginTest.

(** ** The descriptor tree of the specification

    The schema as the specification describes it: a leaf carries its
    attributes, an internal node carries its children in display order.
    [leaves] is the flattening the specification asks for, stated on this
    tree; [represents] relates a Python dictionary to the tree it encodes. *)

Module Schema.

Import JsonMapsToExcel.

#[warning="-register-all"]
Inductive dtree : Type :=
| Leaf (d : dict)
| Node (children : list (string * dtree)).

(** Depth-first, pre-order, children left to right: every leaf with the
    keys on the way down to it. *)
Fixpoint leaves (t : dtree) : list (list string * dict) :=
  match t with
  | Leaf d => [([], d)]
  | Node children =>
      flat_map (fun kc => map (fun pd => (fst kc :: fst pd, snd pd)) (leaves (snd kc)))
               children
  end.

(** A leaf annotated with its full path: the keys joined by ["/"], after the
    caller's base reference. *)
Definition annotate (base_ref : string) (pd : list string * dict) : dict :=
  setitem "k" (VStr (base_ref ++ String.concat "/" (fst pd))) (snd pd).

(** A node is a leaf once it defines a column width. *)
Definition defines_width (d : dict) : bool := negb (is_None (dict_get "c" d)).

Section Every.
Context {A : Type} (P : A -> Prop).
Fixpoint Every (l : list A) : Prop :=
  match l with
  | [] => True
  | x :: l' => P x /\ Every l'
  end.
End Every.

(** The ['o'] entry of [d] lists exactly the keys [ks], in this order. *)
Definition ordered_by (d : dict) (ks : list string) : Prop :=
  match lookup "o" d with
  | Some o => py_iter o = Ok (map VStr ks)
  | None => False
  end.

Fixpoint represents (d : dict) (t : dtree) : Prop :=
  match t with
  | Leaf d' => d' = d /\ defines_width d = true
  | Node children =>
      defines_width d = false /\
      ordered_by d (map fst children) /\
      Every (fun kc => match dict_get (fst kc) d with
                     | VDict dk => represents dk (snd kc)
                     | _ => False
                     end) children
  end.

(** The root is an internal node whatever else it holds: [_descriptors]
    is only ever called on a node. *)
Definition represents_root (d : dict) (children : list (string * dtree)) : Prop :=
  ordered_by d (map fst children) /\
  Every (fun kc => match dict_get (fst kc) d with
                 | VDict dk => represents dk (snd kc)
                 | _ => False
                 end) children.

(** The tree a dictionary encodes, down to [fuel] levels. *)
Fixpoint tree_of (fuel : nat) (d : dict) : list (string * dtree) :=
  match fuel with
  | O => []
  | S fuel' =>
      match lookup "o" d with
      | Some (VTuple ks) =>
          flat_map (fun k =>
            match k with
            | VStr k =>
                match dict_get k d with
                | VDict dk =>
                    if defines_width dk then [(k, Leaf dk)]
                    else [(k, Node (tree_of fuel' dk))]
                | _ => []
                end
            | _ => []
            end) ks
      | _ => []
      end
  end.

Definition rule_conv_tree : list (string * dtree) :=
  Eval cbv in tree_of 4 _rule_conv.

End Schema.

(** ** Sample descriptors and records *)

Module Samples.

Import JsonMapsToExcel.

(** Three of the descriptors [_descriptors(_rule_conv, '')] returns. *)
Definition group_name_descriptor : dict :=
  [("d", VStr "Group Name"); ("c", VInt 32); ("ha", _align_wrap);
   ("da", _align_wrap); ("k", VStr "groupName")].

Definition measure_id_descriptor : dict :=
  [("d", VStr "Measure"); ("c", VInt 24); ("ha", _align_wrap);
   ("da", _align_wrap); ("k", VStr "measureDetails/measureId")].

Definition threshold_list_descriptor : dict :=
  [("d", VStr "Threshold List"); ("c", VInt 12); ("m", VFunc F_generic_list);
   ("ha", _align_wrap); ("da", _align_wrap);
   ("k", VStr "measureDetails/thresholdDtls/thresholdList")].

(** [{"groupName": "G1", "ruleName": "R1", "isDefaultRule": true}] *)
Definition rule_without_measure : value :=
  VDict [("groupName", VStr "G1"); ("ruleName", VStr "R1");
         ("isDefaultRule", VBool true)].

(** A record with every group the schema descends into, around the given
    threshold details. *)
Definition rule_with_thresholds (thresholdDtls : dict) : value :=
  VDict [("groupName", VStr "G1"); ("ruleName", VStr "R1");
         ("isDefaultRule", VBool true);
         ("measureDetails",
          VDict [("measureId", VStr "CRC");
                 ("thresholdDtls", VDict thresholdDtls);
                 ("timeBaseDtls", VDict [("timeBaseValue", VStr "MIN")]);
                 ("swActions", VDict [("rasLogEvent", VBool true);
                                      ("fence", VBool false)])])].

(** The details hold no ["thresholdList"]. *)
Definition rule_without_threshold_list : value :=
  rule_with_thresholds [("operator", VStr "GE")].

(** ["thresholdList": true] *)
Definition rule_boolean_threshold_list : value :=
  rule_with_thresholds [("operator", VStr "GE"); ("thresholdList", VBool true)].

(** [{"groupName": [1, 2]}] *)
Definition rule_numeric_list : value :=
  VDict [("groupName", VList [VInt 1; VInt 2])].

(** ["thresholdList": ["10", "20"]] *)
Definition rule_complete : value :=
  rule_with_thresholds
    [("operator", VStr "GE"); ("thresholdList", VList [VStr "10"; VStr "20"])].

(** [gen_util.sort_obj_str] on a list that is in order already. *)
Definition sort_in_order (v : value) (keys : list string) : exc (list value) :=
  py_iter v.

(** A policy with one category. *)
Definition policy (name category : string) (rules : list value) : value :=
  VDict [("policyName", VStr name); ("isActive", VBool true);
         ("categoryDetailsInfo", VDict [(category, VList rules)])].

(** A projected value that row rendering writes as it is. *)
Definition is_plain (v : value) : bool :=
  match v with
  | VNone | VBool _ | VList _ | VTuple _ => false
  | _ => true
  end.

End Samples.

(** ** Observations on a report *)

Module Observe.

Import JsonMapsToExcel.

(** The flattened schema with the column numbers [_create_sheet] assigns,
    as [_maps_page] uses it for every sheet. *)
Definition column_descriptors : list dict :=
  Eval cbv in
    match (ds <- _descriptors _rule_conv "" ;; _create_sheet "" "" VNone ds) with
    | Ok (_, ds) => ds
    | Raise _ => []
    end.

(** The sheet [_create_sheet] returns for the flattened schema. *)
Definition header_sheet (tc sheet_name : string) (sheet_title : value) : worksheet :=
  Eval cbv beta iota zeta delta -[append] in
    match (ds <- _descriptors _rule_conv "" ;; _create_sheet tc sheet_name sheet_title ds) with
    | Ok (sheet, _) => sheet
    | Raise _ => mk_sheet sheet_name [] [] [] ""
    end.

(** What was written to the cell at [row], [col] of the sheet that
    [_maps_page] put first in the workbook. *)
Definition written (row col : Z) (r : exc workbook) : list value :=
  match r with
  | Ok (sheet :: _) =>
      map cell_buf
          (filter (fun c => Z.eqb (cell_row c) row && Z.eqb (cell_col c) col)
                  (ws_cells sheet))
  | _ => []
  end.

(** How many sheets of a workbook carry the title [name]. *)
Definition count_title (name : string) (wb : workbook) : nat :=
  List.length (filter (fun sheet => String.eqb (ws_title sheet) name) wb).

(** How many rows of the table of contents link to [anchor]. *)
Definition count_hyper (anchor : string) (t_content : list dict) : nat :=
  List.length (filter (fun row => match dict_get "hyper" row with
                                  | VStr s => String.eqb s anchor
                                  | _ => false
                                  end) t_content).

End Observe.

(** ** Shapes of values and of results *)

Module Shapes.

Import JsonMapsToExcel.

(** [isinstance(v, dict)]. *)
Definition is_dict (v : value) : bool :=
  match v with VDict _ => true | _ => false end.

(** [k in d]. *)
Definition has_key (k : string) (d : dict) : bool :=
  match lookup k d with Some _ => true | None => false end.



(** A key that holds no ["/"]. *)
Fixpoint no_slash (s : string) : bool :=
  match s with
  | EmptyString => true
  | String c s' => negb (Ascii.eqb c "/") && no_slash s'
  end.

(** A string that holds no ["_"]. *)
Fixpoint no_underscore (s : string) : bool :=
  match s with
  | EmptyString => true
  | String c s' => negb (Ascii.eqb c "_") && no_underscore s'
  end.


(** The conversion step that ends [_rule_value]. *)
Definition convert (d : dict) (v0 : value) : exc value :=
  if is_None (dict_get "m" d) then Ok v0 else call (dict_get "m" d) v0.

(** A value row rendering hands to the cell as it found it. *)
Definition is_raw_cell (v : value) : bool :=
  match v with
  | VBool _ | VList _ | VTuple _ => false
  | _ => true
  end.

Section Lists.

Variable sort_obj_str : value -> list string -> exc (list value).

(** The rule list of the "All" sheet: per category, its key as a label and
    then its sorted records. *)
Fixpoint all_rules (its : dict) : exc (list value) :=
  match its with
  | [] => Ok []
  | (k1, v1) :: its' =>
      sorted_l <- sort_obj_str v1 ["groupName"; "ruleName"] ;;
      rest <- all_rules its' ;;
      Ok (VStr k1 :: sorted_l ++ rest)%list
  end.

End Lists.

(** The sheet names of the categories of one policy, from index [i] on. *)
Fixpoint category_names (i : Z) (its : dict) : list string :=
  match its with
  | [] => []
  | (k1, _) :: its' =>
      match _write_report_sheet k1 i with
      | Ok (name, _, _) => name
      | Raise _ => EmptyString
      end :: category_names (i + 1) its'
  end.

(** The categories of a policy, in the order of the export: none when
    ['categoryDetailsInfo'] is absent or null. *)
Definition categories_of (obj : value) : exc dict :=
  c <- attr_get obj "categoryDetailsInfo" ;;
  match (if is_None c then VDict [] else c) with
  | VDict d => Ok d
  | _ => Raise AttributeError
  end.

(** [isinstance(v, str)]. *)
Definition is_str (v : value) : bool :=
  match v with VStr _ => true | _ => false end.

(** How the table of contents shows a policy attribute. *)
Definition toc_disp (v : value) : value :=
  match v with
  | VBool b => VStr (if b then checkmark else "")
  | VStr _ => v
  | _ => VStr ""
  end.

(** The calls of the login probe, by kind. *)
Definition is_call_login {obj : Type} (e : LoginTest.event obj) : bool :=
  match e with LoginTest.call_login _ _ _ _ => true | _ => false end.

Definition is_call_logout {obj : Type} (e : LoginTest.event obj) : bool :=
  match e with LoginTest.call_logout _ => true | _ => false end.

Definition is_close_log {obj : Type} (e : LoginTest.event obj) : bool :=
  match e with LoginTest.close_log _ => true | _ => false end.

(** The rows of the table of contents before the first policy. *)
Definition toc_header : list dict :=
  Eval cbv in
    match _write_report_hdr _tc_headers
            [ [("merge", VInt 6); ("font", VStr "hdr_1"); ("align", VStr "wrap");
               ("disp", VStr "MAPS Policies and Rules Report")]; [] ] 0 with
    | Ok (t_content, _) => (t_content ++ [[]])%list
    | Raise _ => []
    end.

(** The column widths of the table of contents. *)
Definition toc_widths : list value :=
  [VInt 32; VInt 5; VInt 32; VInt 32; VInt 5; VInt 5].

End Shapes.

(** ** Properties of the schema flattener *)

Import JsonMapsToExcel.
Import Schema.
Import Samples.
Import Observe.
Import Shapes.

Lemma bind_ok {A B : Type} (a : A) (k : A -> exc B) : bind (Ok a) k = k a.
Proof. reflexivity. Qed.

Lemma append_assoc (a b c : string) : ((a ++ b) ++ c = a ++ (b ++ c))%string.
Proof.
  induction a as [|x a IH]; simpl; [reflexivity | now rewrite IH].
Qed.

(** A dictionary found under a key nests less deeply than its owner. *)
Lemma lookup_depth (k : string) (d : dict) (v : value) :
  lookup k d = Some v -> (depth v < depth (VDict d))%nat.
Proof.
  induction d as [|[k' v'] d IH]; simpl; [discriminate|].
  destruct (String.eqb k k').
  - intros [= ->]. lia.
  - intros H. specialize (IH H). simpl in IH. lia.
Qed.

Lemma dict_get_depth (k : string) (d dk : dict) :
  dict_get k d = VDict dk -> (depth (VDict dk) < depth (VDict d))%nat.
Proof.
  unfold dict_get. destruct (lookup k d) eqn:E; [|discriminate].
  intros ->. eapply lookup_depth; eauto.
Qed.

(** Below an internal node every path has at least one key. *)
Lemma leaves_node_path (children : list (string * dtree)) (pd : list string * dict) :
  In pd (leaves (Node children)) -> fst pd <> [].
Proof.
  simpl. rewrite in_flat_map. intros [kc [_ H]].
  apply in_map_iff in H. destruct H as [pd' [<- _]]. simpl. discriminate.
Qed.

(** Descending into child [k] extends the base reference by [k/]. *)
Lemma annotate_child (base_ref k : string) (children : list (string * dtree)) :
  map (annotate base_ref)
      (map (fun pd => (k :: fst pd, snd pd)) (leaves (Node children)))
  = map (annotate ((base_ref ++ k) ++ "/")) (leaves (Node children)).
Proof.
  rewrite map_map. apply map_ext_in. intros pd Hin.
  apply leaves_node_path in Hin. unfold annotate. simpl.
  destruct (fst pd) as [|p ps]; [congruence|].
  now rewrite !append_assoc.
Qed.

Lemma descriptors_loop_spec (rec : dict -> string -> exc (list dict))
    (obj : dict) (base_ref : string) :
  forall (children : list (string * dtree)) (r_list : list dict),
    Every (fun kc => match dict_get (fst kc) obj with
                     | VDict dk =>
                         represents dk (snd kc) /\
                         (forall cs, snd kc = Node cs ->
                            rec dk ((base_ref ++ fst kc) ++ "/")
                            = Ok (map (annotate ((base_ref ++ fst kc) ++ "/"))
                                      (leaves (Node cs))))
                     | _ => False
                     end) children ->
    _descriptors_loop rec obj base_ref (map VStr (map fst children)) r_list
    = Ok (r_list ++ map (annotate base_ref) (leaves (Node children)))%list.
Proof.
  induction children as [|[k c] children IH]; intros r_list H.
  - simpl. now rewrite app_nil_r.
  - destruct H as [Hk Hrest]. simpl in Hk.
    cbn [map fst _descriptors_loop get_obj bind].
    destruct (dict_get k obj) as [| | | | | | |dk| |] eqn:Ek; try contradiction.
    destruct Hk as [Hrep Hrec].
    change (leaves (Node ((k, c) :: children)))
      with (map (fun pd => (k :: fst pd, snd pd)) (leaves c)
            ++ leaves (Node children))%list.
    rewrite map_app, app_assoc.
    destruct c as [d' | cs].
    + destruct Hrep as [-> Hw]. unfold defines_width in Hw. rewrite Hw.
      cbn [str_add bind]. rewrite IH by exact Hrest. reflexivity.
    + destruct Hrep as [Hw _]. unfold defines_width in Hw. rewrite Hw.
      cbn [str_add bind]. rewrite (Hrec cs eq_refl). cbn [bind].
      rewrite IH by exact Hrest. now rewrite annotate_child.
Qed.

Lemma every_impl {A : Type} (P Q : A -> Prop) (l : list A) :
  (forall x, In x l -> P x -> Q x) -> Every P l -> Every Q l.
Proof.
  induction l as [|x l IH]; simpl; [trivial|].
  intros H [Hx Hl]. split; [apply H; auto | apply IH; auto].
Qed.

Lemma descriptors_rec_spec :
  forall (fuel : nat) (obj : dict) (base_ref : string)
         (children : list (string * dtree)),
    (depth (VDict obj) <= fuel)%nat ->
    represents_root obj children ->
    _descriptors_rec fuel obj base_ref
    = Ok (map (annotate base_ref) (leaves (Node children))).
Proof.
  induction fuel as [|fuel IH]; intros obj base_ref children Hd [Ho Hc].
  - simpl in Hd. lia.
  - cbn [_descriptors_rec]. unfold ordered_by in Ho. unfold getitem.
    destruct (lookup "o" obj) as [o|]; [|contradiction].
    cbn [bind]. rewrite Ho. cbn [bind].
    rewrite descriptors_loop_spec with (children := children); [reflexivity|].
    revert Hc. apply every_impl. intros [k c] _. simpl.
    destruct (dict_get k obj) as [| | | | | | |dk| |] eqn:Ek; try contradiction.
    intros Hrep. split; [exact Hrep|]. intros cs ->.
    apply IH.
    + apply dict_get_depth in Ek. lia.
    + destruct Hrep as [_ Hrep]. exact Hrep.
Qed.

Lemma dict_get_setitem (k : string) (v : value) (d : dict) :
  dict_get k (setitem k v d) = v.
Proof.
  unfold dict_get. induction d as [|[k' v'] d IH]; simpl.
  - now rewrite String.eqb_refl.
  - destruct (String.eqb k k') eqn:E; simpl.
    + now rewrite String.eqb_refl.
    + now rewrite E.
Qed.

(** C4.  On every dictionary that encodes a descriptor tree (each internal
    node lists its children under ['o'], a node is a leaf exactly when it
    defines a column width), [_descriptors] returns the leaves of the tree in
    depth-first pre-order following the ['o'] lists, each annotated under
    ['k'] with the base reference followed by the keys on the way down to it
    joined by ["/"]. *)
Theorem descriptors_preorder_paths :
  forall (obj : dict) (children : list (string * dtree)) (base_ref : string),
    represents_root obj children ->
    _descriptors obj base_ref
    = Ok (map (annotate base_ref) (leaves (Node children))) /\
    map (dict_get "k") (map (annotate base_ref) (leaves (Node children)))
    = map (fun pd => VStr (base_ref ++ String.concat "/" (fst pd)))
          (leaves (Node children)).
Proof.
  intros obj children base_ref H. split.
  - unfold _descriptors. apply descriptors_rec_spec; [lia | exact H].
  - rewrite map_map. apply map_ext. intros pd. unfold annotate.
    apply dict_get_setitem.
Qed.

Lemma descriptors_preorder_paths_witness :
  represents_root _rule_conv rule_conv_tree /\
  _descriptors _rule_conv ""
  = Ok (map (annotate "") (leaves (Node rule_conv_tree))).
Proof.
  assert (H : represents_root _rule_conv rule_conv_tree).
  { unfold represents_root, ordered_by. cbn. repeat split. }
  split; [exact H|].
  exact (proj1 (descriptors_preorder_paths _rule_conv rule_conv_tree "" H)).
Defined.

(** ** Properties of the record projector and of row rendering *)

Lemma strings_of_strs (l : list string) : strings_of (map VStr l) = Ok l.
Proof.
  induction l as [|s l IH]; simpl; [reflexivity | now rewrite IH].
Qed.

Lemma str_join_strs (sep : string) (l : list string) :
  str_join sep (map VStr l) = Ok (String.concat sep l).
Proof. unfold str_join. now rewrite strings_of_strs. Qed.

(** A complete record on its page: group, rule, the checkmark of the
    default rule, and the joined list of thresholds. *)
Example maps_page_complete_rule :
  let page := _maps_page [] "MAPS_Policies" "port_0" 0 (VStr "Port Rules")
                [rule_complete] in
  written 4 1 page = [VStr "G1"] /\
  written 4 4 page = [VStr "R1"] /\
  written 4 6 page = [VStr checkmark] /\
  written 4 12 page = [VStr "10, 20"] /\
  written 4 19 page = [VStr ""] /\
  written 4 3 page = [VNone].
Proof. cbv zeta. repeat split. Qed.

(** C1.  The record of the specification's end-to-end example has no
    ["measureDetails"]: projecting the descriptor of the Measure column into
    it (a descriptor of the flattened schema) raises [AttributeError] at the
    second path segment, and so does writing the page that holds the
    record. *)
Theorem rule_value_missing_parent_raises :
  (exists l, _descriptors _rule_conv "" = Ok l /\ In measure_id_descriptor l) /\
  _rule_value measure_id_descriptor rule_without_measure = Raise AttributeError /\
  (forall (wb : workbook) (tc sheet_name : string) (sheet_i : Z) (sheet_title : value),
      _maps_page wb tc sheet_name sheet_i sheet_title [rule_without_measure]
      = Raise AttributeError).
Proof.
  split; [|split].
  - eexists. split; [reflexivity|]. unfold measure_id_descriptor. simpl. tauto.
  - reflexivity.
  - intros. reflexivity.
Qed.

(** C2, as stated, fails: the list of thresholds is absent from the record,
    the walk gives [None], and projection returns the placeholder the list
    conversion builds from [None]. *)
Lemma conversion_applied_to_no_value :
  dict_get "m" threshold_list_descriptor = VFunc F_generic_list /\
  _rule_value_walk (str_split "/" "measureDetails/thresholdDtls/thresholdList")
                   rule_without_threshold_list = Ok VNone /\
  _rule_value threshold_list_descriptor rule_without_threshold_list
  = Ok (VStr "NOT LIST (<class 'NoneType'>)") /\
  written 4 12 (_maps_page [] "MAPS_Policies" "port_0" 0 (VStr "Port Rules")
                  [rule_without_threshold_list])
  = [VStr "NOT LIST (<class 'NoneType'>)"].
Proof. repeat split. Qed.

(** C2, amended.  A descriptor's conversion function is applied to whatever
    the path walk yields, [None] included: on [None] the pass-through
    conversion returns [None] and the list conversion returns its
    placeholder.  Only a descriptor without a path returns [None] with no
    conversion applied. *)
Theorem rule_value_converts_walk_result :
  forall (d : dict) (rule : value),
    (dict_get "k" d = VNone -> _rule_value d rule = Ok VNone) /\
    (forall (s : string) (m : func) (v0 : value),
        dict_get "k" d = VStr s ->
        dict_get "m" d = VFunc m ->
        _rule_value_walk (str_split "/" s) rule = Ok v0 ->
        _rule_value d rule = call (VFunc m) v0 /\
        (v0 = VNone -> m = F_place_holder -> _rule_value d rule = Ok VNone) /\
        (v0 = VNone -> m = F_generic_list ->
         _rule_value d rule = Ok (VStr "NOT LIST (<class 'NoneType'>)"))).
Proof.
  intros d rule. split.
  - intros Hk. unfold _rule_value. now rewrite Hk.
  - intros s m v0 Hk Hm Hwalk.
    assert (E : _rule_value d rule = call (VFunc m) v0).
    { unfold _rule_value. rewrite Hk, Hm. cbn [is_None bind]. rewrite Hwalk.
      reflexivity. }
    split; [exact E|]. split; intros -> ->; rewrite E; reflexivity.
Qed.

Lemma rule_value_converts_walk_result_witness :
  _rule_value threshold_list_descriptor rule_without_threshold_list
  = call (VFunc F_generic_list) VNone.
Proof.
  exact (proj1 (proj2 (rule_value_converts_walk_result
                         threshold_list_descriptor rule_without_threshold_list)
                  "measureDetails/thresholdDtls/thresholdList" F_generic_list VNone
                  eq_refl eq_refl eq_refl)).
Defined.

(** C3, as stated, fails: under the list conversion the boolean [true] is
    rendered as the placeholder, not as the checkmark. *)
Lemma boolean_under_list_conversion :
  _rule_value_walk (str_split "/" "measureDetails/thresholdDtls/thresholdList")
                   rule_boolean_threshold_list = Ok (VBool true) /\
  _maps_page_buf threshold_list_descriptor rule_boolean_threshold_list
  = Ok (VStr "NOT LIST (<class 'bool'>)") /\
  _maps_page_buf threshold_list_descriptor rule_boolean_threshold_list
  <> Ok (VStr checkmark) /\
  written 4 12 (_maps_page [] "MAPS_Policies" "port_0" 0 (VStr "Port Rules")
                  [rule_boolean_threshold_list])
  = [VStr "NOT LIST (<class 'bool'>)"].
Proof. repeat split. discriminate. Qed.

(** C3, amended.  When the record holds a boolean at the descriptor's path
    and the descriptor declares no conversion or the pass-through conversion,
    [true] is rendered as the checkmark and [false] as the empty string;
    under the list conversion a boolean is rendered as the placeholder. *)
Theorem boolean_rendering :
  forall (d : dict) (rule : value) (s : string) (b : bool),
    dict_get "k" d = VStr s ->
    _rule_value_walk (str_split "/" s) rule = Ok (VBool b) ->
    (dict_get "m" d = VNone \/ dict_get "m" d = VFunc F_place_holder ->
     _maps_page_buf d rule = Ok (VStr (if b then checkmark else ""))) /\
    (dict_get "m" d = VFunc F_generic_list ->
     _maps_page_buf d rule = Ok (VStr "NOT LIST (<class 'bool'>)")).
Proof.
  intros d rule s b Hk Hwalk. unfold _maps_page_buf, _rule_value.
  rewrite Hk. cbn [is_None bind]. rewrite Hwalk. cbn [bind].
  split.
  - intros [-> | ->]; reflexivity.
  - intros ->. reflexivity.
Qed.

Lemma boolean_rendering_witness :
  _maps_page_buf
    [("k", VStr "isDefaultRule"); ("col", VInt 6)] rule_without_measure
  = Ok (VStr checkmark).
Proof.
  exact (proj1 (boolean_rendering
                  [("k", VStr "isDefaultRule"); ("col", VInt 6)]
                  rule_without_measure "isDefaultRule" true eq_refl eq_refl)
               (or_introl eq_refl)).
Defined.

(** C10, as stated, fails: a projected list whose elements are not strings
    is not written at all, [', '.join] raises [TypeError]. *)
Lemma numeric_list_not_joined :
  _rule_value group_name_descriptor rule_numeric_list
  = Ok (VList [VInt 1; VInt 2]) /\
  _maps_page_buf group_name_descriptor rule_numeric_list = Raise TypeError /\
  (forall (wb : workbook) (tc sheet_name : string) (sheet_i : Z) (sheet_title : value),
      _maps_page wb tc sheet_name sheet_i sheet_title [rule_numeric_list]
      = Raise TypeError).
Proof. repeat split. Qed.

(** C10, amended.  During row rendering a projected list or tuple of
    strings is written as its elements joined with [", "], whether or not
    the descriptor declares a conversion; a projected value that is neither
    [None], a boolean, a list nor a tuple is written unchanged; [None] is
    written as [None], which leaves the cell empty. *)
Theorem row_cell_rendering :
  forall (d : dict) (rule : value) (row : Z) (cells : list cell)
         (c : Z) (da v : value),
    lookup "col" d = Some (VInt c) ->
    lookup "da" d = Some da ->
    _rule_value d rule = Ok v ->
    (forall ss : list string,
        v = VList (map VStr ss) \/ v = VTuple (map VStr ss) ->
        _maps_page_rule [d] rule row cells
        = Ok (cells ++ [mk_cell row c (VStr (String.concat ", " ss)) _std_font da None])%list) /\
    (is_plain v = true ->
     _maps_page_rule [d] rule row cells
     = Ok (cells ++ [mk_cell row c v _std_font da None])%list) /\
    (v = VNone ->
     _maps_page_rule [d] rule row cells
     = Ok (cells ++ [mk_cell row c VNone _std_font da None])%list).
Proof.
  intros d rule row cells c da v Hcol Hda Hv.
  unfold _maps_page_rule, _maps_page_buf, getitem.
  rewrite Hv, Hcol, Hda. cbn [bind as_int].
  repeat split.
  - intros ss [-> | ->]; cbn [is_None negb]; now rewrite str_join_strs.
  - destruct v; simpl; intros; try discriminate; reflexivity.
  - intros ->. reflexivity.
Qed.

Lemma row_cell_rendering_witness :
  _maps_page_rule
    [[("k", VStr "groupName"); ("da", _align_wrap); ("col", VInt 1)]]
    (VDict [("groupName", VTuple [VStr "a"; VStr "b"])]) 4 []
  = Ok [mk_cell 4 1 (VStr "a, b") _std_font _align_wrap None].
Proof.
  exact (proj1 (row_cell_rendering
                  [("k", VStr "groupName"); ("da", _align_wrap); ("col", VInt 1)]
                  (VDict [("groupName", VTuple [VStr "a"; VStr "b"])]) 4 [] 1
                  _align_wrap (VTuple [VStr "a"; VStr "b"])
                  eq_refl eq_refl eq_refl)
               ["a"; "b"] (or_intror eq_refl)).
Defined.

(** ** Properties of the conversion functions *)

(** C8.  [_generic_list] returns the elements of a list of strings joined
    with [", "]; on every value that is not a list it returns the placeholder
    that names the type of the value, and does not raise. *)
Theorem generic_list_display :
  (forall l : list string,
      _generic_list (VList (map VStr l)) = Ok (VStr (String.concat ", " l))) /\
  (forall v : value,
      is_list v = false ->
      _generic_list v = Ok (VStr ("NOT LIST (" ++ type_str v ++ ")"))).
Proof.
  split.
  - intros l. unfold _generic_list. now rewrite str_join_strs.
  - intros v Hv. destruct v; try reflexivity. discriminate.
Qed.

Lemma generic_list_display_witness :
  _generic_list (VInt 7) = Ok (VStr "NOT LIST (<class 'int'>)").
Proof.
  exact (proj2 generic_list_display (VInt 7) eq_refl).
Defined.

(** ** Properties of the command line *)

Ltac split_ascii_dec :=
  repeat match goal with
         | |- context [ascii_dec ?a ?b] =>
             destruct (ascii_dec a b);
             try discriminate; subst; cbn [String.prefix String.append]
         end.

(** The suffix appended to a non-empty name starts no earlier occurrence. *)
Lemma prefix_json_app (s : string) :
  s <> EmptyString ->
  String.prefix ".json" (s ++ ".json") = String.prefix ".json" s.
Proof.
  destruct s as [|c0 [|c1 [|c2 [|c3 [|c4 s]]]]]; intros H; try congruence;
    cbn [String.prefix String.append]; split_ascii_dec;
    try reflexivity; destruct s; reflexivity.
Qed.

Lemma replace_json_suffix (base : string) :
  occurs ".json" base = false ->
  str_replace ".json" ".xlsx" (base ++ ".json") = (base ++ ".xlsx")%string.
Proof.
  unfold str_replace. induction base as [|c base IH]; intros H.
  - reflexivity.
  - cbn [occurs] in H. apply orb_false_iff in H. destruct H as [Hp Ho].
    change (String c base ++ ".json")%string with (String c (base ++ ".json")).
    cbn [replace_from].
    change (String c (base ++ ".json")) with (String c base ++ ".json")%string.
    rewrite prefix_json_app by discriminate. rewrite Hp.
    simpl. f_equal. apply IH.
    destruct base; [reflexivity | exact Ho].
Qed.

(** C9.  [_get_input] returns the resolved input name together with the
    report name: without [-o], the resolved input name with every [".json"]
    replaced by [".xlsx"], which for a base name that holds no [".json"]
    followed by the appended suffix is the base name followed by [".xlsx"];
    with [-o], the value of [-o] as it is. *)
Theorem get_input_report_name :
  forall (full_file_name : string -> string -> string) (a : args),
    let r := snd (_get_input full_file_name a) in
    fst r = full_file_name (arg_i a) ".json" /\
    (arg_o a = None -> snd r = str_replace ".json" ".xlsx" (fst r)) /\
    (forall base : string,
        arg_o a = None ->
        fst r = (base ++ ".json")%string ->
        occurs ".json" base = false ->
        snd r = (base ++ ".xlsx")%string) /\
    (forall o : string, arg_o a = Some o -> snd r = o).
Proof.
  intros full_file_name a. unfold _get_input. cbn.
  split; [reflexivity|]. split; [|split].
  - intros ->. reflexivity.
  - intros base -> -> Hb. now apply replace_json_suffix.
  - intros o ->. reflexivity.
Qed.

Lemma get_input_report_name_witness :
  snd (_get_input (fun f e => f ++ e)%string
                  (mk_args "maps/policy_48" None None false))
  = ("maps/policy_48.json", "maps/policy_48.xlsx") /\
  snd (snd (_get_input (fun f e => f ++ e)%string
                       (mk_args "maps/policy_48" (Some "report") None false)))
  = "report".
Proof.
  split.
  - apply injective_projections.
    + reflexivity.
    + exact (proj1 (proj2 (proj2 (get_input_report_name
               (fun f e => f ++ e)%string (mk_args "maps/policy_48" None None false))))
             "maps/policy_48" eq_refl eq_refl eq_refl).
  - exact (proj2 (proj2 (proj2 (get_input_report_name
             (fun f e => f ++ e)%string
             (mk_args "maps/policy_48" (Some "report") None false))))
           "report" eq_refl).
Defined.

(** ** Properties of the login probe *)

(** C5.  When the login fails the probe returns the API-error status and
    never calls logout; when the login succeeds and the logout fails it
    calls logout and returns [-1], which differs from the API-error status
    as soon as that status of brcddb_common is not negative; when both
    succeed it returns the success status.  The value returned is the
    argument of [exit]. *)
Theorem login_probe_exit_status :
  forall (obj : Type) (login : string -> string -> string -> string -> obj)
         (logout : obj -> obj) (is_error : obj -> bool)
         (formatted_error_msg : obj -> string)
         (mask_ip_addr : string -> bool -> string)
         (EXIT_STATUS_OK EXIT_STATUS_API_ERROR : Z) (a : LoginTest.args),
    let sec := match LoginTest.arg_s a with None => "none" | Some s => s end in
    let session :=
      login (LoginTest.arg_id a) (LoginTest.arg_pw a) (LoginTest.arg_ip a) sec in
    let r := LoginTest.main obj login logout is_error formatted_error_msg
               mask_ip_addr EXIT_STATUS_OK EXIT_STATUS_API_ERROR a in
    (is_error session = true ->
     snd r = EXIT_STATUS_API_ERROR /\
     forall o : obj, ~ In (LoginTest.call_logout o) (fst r)) /\
    (is_error session = false -> is_error (logout session) = true ->
     snd r = -1 /\
     (0 <= EXIT_STATUS_API_ERROR -> snd r <> EXIT_STATUS_API_ERROR) /\
     In (LoginTest.call_logout session) (fst r)) /\
    (is_error session = false -> is_error (logout session) = false ->
     snd r = EXIT_STATUS_OK /\
     In (LoginTest.call_logout session) (fst r)).
Proof.
  intros obj login logout is_error formatted_error_msg mask_ip_addr
         EXIT_STATUS_OK EXIT_STATUS_API_ERROR a sec session r.
  subst r. unfold LoginTest.main, LoginTest.psuedo_main. cbn.
  fold sec. fold session.
  split; [|split].
  - intros ->. cbn. split; [reflexivity|].
    intros o H. repeat (destruct H as [H|H]; [discriminate|]). exact H.
  - intros -> ->. cbn. split; [reflexivity|]. split; [lia|]. tauto.
  - intros -> ->. cbn. split; [reflexivity|]. tauto.
Qed.

Lemma login_probe_exit_status_witness :
  snd (LoginTest.main bool (fun _ _ _ _ => true) (fun _ => false) (fun o => negb o)
         (fun _ => "HTTP 500") (fun ip _ => ip) 0 3
         (LoginTest.mk_args "10.0.0.1" "admin" "pw" None None false))
  = -1 /\
  snd (LoginTest.main bool (fun _ _ _ _ => true) (fun _ => false) (fun o => negb o)
         (fun _ => "HTTP 500") (fun ip _ => ip) 0 3
         (LoginTest.mk_args "10.0.0.1" "admin" "pw" None None false))
  <> 3.
Proof.
  pose proof (proj1 (proj2 (login_probe_exit_status
                bool (fun _ _ _ _ => true) (fun _ => false) (fun o => negb o)
                (fun _ => "HTTP 500") (fun ip _ => ip) 0 3
                (LoginTest.mk_args "10.0.0.1" "admin" "pw" None None false)))
              eq_refl eq_refl) as H.
  split.
  - exact (proj1 H).
  - apply (proj1 (proj2 H)). lia.
Defined.

(** ** Properties of the report writer *)

(** Row rendering only appends to the cells it is given. *)
Lemma maps_page_rule_app (dl : list dict) (rule : value) (row : Z) :
  forall cells : list cell,
    _maps_page_rule dl rule row cells
    = (extra <- _maps_page_rule dl rule row [] ;; Ok (cells ++ extra)%list).
Proof.
  induction dl as [|d dl IH]; intros cells; cbn [_maps_page_rule].
  - cbn [bind]. now rewrite app_nil_r.
  - destruct (_maps_page_buf d rule) as [buf|e]; cbn [bind]; [|reflexivity].
    destruct (getitem "col" d) as [c|e]; cbn [bind]; [|reflexivity].
    destruct (as_int c) as [z|e]; cbn [bind]; [|reflexivity].
    destruct (getitem "da" d) as [da|e]; cbn [bind]; [|reflexivity].
    rewrite IH. rewrite (IH ([] ++ _)%list).
    destruct (_maps_page_rule dl rule row []) as [extra|e]; cbn [bind];
      [|reflexivity].
    now rewrite <- app_assoc.
Qed.

Lemma maps_page_rows_app (dl : list dict) (rule_list : list value) :
  forall (row : Z) (cells : list cell),
    _maps_page_rows dl rule_list row cells
    = (extra <- _maps_page_rows dl rule_list row [] ;; Ok (cells ++ extra)%list).
Proof.
  induction rule_list as [|rule rule_list IH]; intros row cells;
    cbn [_maps_page_rows].
  - cbn [bind]. now rewrite app_nil_r.
  - assert (E : forall cs,
               match rule with
               | VStr _ => Ok (cs ++ [mk_cell row 1 rule _bold_font VNone None])%list
               | _ => _maps_page_rule dl rule row cs
               end
               = (extra <- match rule with
                           | VStr _ => Ok [mk_cell row 1 rule _bold_font VNone None]
                           | _ => _maps_page_rule dl rule row []
                           end ;; Ok (cs ++ extra)%list)).
    { intros cs. destruct rule; try apply maps_page_rule_app. reflexivity. }
    rewrite E. rewrite (E []).
    destruct (match rule with
              | VStr _ => Ok [mk_cell row 1 rule _bold_font VNone None]
              | _ => _maps_page_rule dl rule row []
              end) as [first|e]; cbn [bind]; [|reflexivity].
    rewrite IH. rewrite (IH _ ([] ++ first)%list).
    destruct (_maps_page_rows dl rule_list (row + 1) []) as [extra|e];
      cbn [bind]; [|reflexivity].
    now rewrite <- app_assoc.
Qed.

(** [_maps_page] on the fixed schema: the header sheet, then the rows. *)
Lemma maps_page_unfold (wb : workbook) (tc sheet_name : string) (sheet_i : Z)
    (sheet_title : value) (rule_list : list value) :
  _maps_page wb tc sheet_name sheet_i sheet_title rule_list
  = (rows <- _maps_page_rows column_descriptors rule_list 4 [] ;;
     Ok (create_sheet wb sheet_i
           (mk_sheet sheet_name
              (ws_cells (header_sheet tc sheet_name sheet_title) ++ rows)%list
              (ws_widths (header_sheet tc sheet_name sheet_title))
              (ws_merged (header_sheet tc sheet_name sheet_title))
              (ws_freeze (header_sheet tc sheet_name sheet_title))))).
Proof.
  transitivity
    (cells <- _maps_page_rows column_descriptors rule_list 4
                (ws_cells (header_sheet tc sheet_name sheet_title)) ;;
     Ok (create_sheet wb sheet_i
           (mk_sheet sheet_name cells
              (ws_widths (header_sheet tc sheet_name sheet_title))
              (ws_merged (header_sheet tc sheet_name sheet_title))
              (ws_freeze (header_sheet tc sheet_name sheet_title))))).
  - reflexivity.
  - rewrite maps_page_rows_app.
    destruct (_maps_page_rows column_descriptors rule_list 4 []); reflexivity.
Qed.

(** Whether a page can be written depends on its records alone. *)
Lemma maps_page_ok_records (wb wb' : workbook) (tc tc' name name' : string)
    (i i' : Z) (title title' : value) (rule_list : list value) :
  is_ok (_maps_page wb tc name i title rule_list)
  = is_ok (_maps_page wb' tc' name' i' title' rule_list).
Proof.
  rewrite !maps_page_unfold.
  destruct (_maps_page_rows column_descriptors rule_list 4 []); reflexivity.
Qed.

Lemma count_title_insert (name : string) (sheet : worksheet) :
  forall (i : nat) (wb : workbook),
    count_title name (insert_at i sheet wb)
    = (count_title name wb
       + if String.eqb (ws_title sheet) name then 1 else 0)%nat.
Proof.
  unfold count_title.
  induction i as [|i IH]; intros [|s wb]; simpl;
    try (destruct (String.eqb (ws_title sheet) name); simpl; lia).
  specialize (IH wb).
  destruct (String.eqb (ws_title s) name); simpl; lia.
Qed.

Lemma count_hyper_app (anchor : string) (a b : list dict) :
  count_hyper anchor (a ++ b) = (count_hyper anchor a + count_hyper anchor b)%nat.
Proof. unfold count_hyper. now rewrite filter_app, length_app. Qed.

(** A sheet written by [_maps_page] is in the workbook under the name
    asked for, with the title asked for in cell B1. *)
Lemma maps_page_sheet (wb wb' : workbook) (tc name : string) (i : Z)
    (title : value) (rule_list : list value) :
  _maps_page wb tc name i title rule_list = Ok wb' ->
  (forall nm, count_title nm wb'
              = (count_title nm wb + if String.eqb name nm then 1 else 0)%nat) /\
  exists sheet,
    In sheet wb' /\ ws_title sheet = name /\
    In (mk_cell 1 2 title _hdr_1_font VNone None) (ws_cells sheet).
Proof.
  rewrite maps_page_unfold.
  destruct (_maps_page_rows column_descriptors rule_list 4 []) as [rows|e];
    cbn [bind]; [|discriminate].
  intros [= <-]. split.
  - intros nm. unfold create_sheet. now rewrite count_title_insert.
  - eexists. split; [|split].
    + unfold create_sheet.
      assert (G : forall (x : worksheet) n l, In x (insert_at n x l)).
      { induction n as [|n IHn]; intros [|y l]; simpl; auto. }
      apply G.
    + reflexivity.
    + cbn [ws_cells]. right. left. reflexivity.
Qed.

Lemma page_lookup (k : string) (p : value) :
  lookup k _page = Some p -> exists t n, p = page t n.
Proof.
  unfold _page. cbn [lookup].
  repeat match goal with
         | |- context [if String.eqb k ?s then _ else _] =>
             destruct (String.eqb k s);
             [intros [= <-]; eexists; eexists; reflexivity|]
         end.
  discriminate.
Qed.

Lemma write_report_sheet_known (k t n : string) (sheet_index : Z) :
  lookup k _page = Some (page t n) ->
  _write_report_sheet k sheet_index
  = Ok ((n ++ "_" ++ str_of_Z sheet_index)%string, VStr t, VFunc F_maps_page).
Proof.
  intros H. unfold _write_report_sheet, _write_report_try, getitem.
  rewrite H. reflexivity.
Qed.

Lemma write_report_sheet_unknown (k : string) (sheet_index : Z) :
  lookup k _page = None ->
  _write_report_sheet k sheet_index
  = Ok (("unknown_" ++ str_of_Z sheet_index)%string, VStr k, VFunc F_maps_page).
Proof.
  intros H. unfold _write_report_sheet, _write_report_try, getitem.
  rewrite H. reflexivity.
Qed.

(** Every category key, known or not, gets a sheet name, a title and the
    page routine. *)
Lemma write_report_sheet_total (k : string) (sheet_index : Z) :
  exists name title,
    _write_report_sheet k sheet_index = Ok (name, title, VFunc F_maps_page).
Proof.
  destruct (lookup k _page) as [p|] eqn:E.
  - destruct (page_lookup k p E) as [t [n ->]].
    eexists. eexists. exact (write_report_sheet_known k t n sheet_index E).
  - eexists. eexists. exact (write_report_sheet_unknown k sheet_index E).
Qed.

Lemma bind_inv {A B : Type} (m : exc A) (k : A -> exc B) (b : B) :
  bind m k = Ok b -> exists a, m = Ok a /\ k a = Ok b.
Proof.
  destruct m as [a|e]; cbn [bind]; [|discriminate]. intros H. now exists a.
Qed.


Lemma is_ok_bind_ok {A B : Type} (m : exc A) (k : A -> exc B) :
  (forall a, is_ok (k a) = true) -> is_ok (bind m k) = is_ok m.
Proof. intros H. destruct m as [a|e]; cbn [bind is_ok]; auto. Qed.

Section ReportFacts.

Variable sort_obj_str : value -> list string -> exc (list value).

(** One category: the sheet plan, the sort, then [_maps_page]. *)
Lemma write_report_category_unfold (tc : string) (max_cols : Z) (st : cat_state)
    (k1 : string) (v1 : value) (name : string) (title : value) :
  _write_report_sheet k1 (st_sheet_index st) = Ok (name, title, VFunc F_maps_page) ->
  _write_report_category sort_obj_str tc max_cols st k1 v1
  = (sorted_l <- sort_obj_str v1 ["groupName"; "ruleName"] ;;
     wb <- _maps_page (st_wb st) tc name (st_sheet_index st) title sorted_l ;;
     Ok (mk_cat wb
           (st_t_content st ++ [blank_cell] ++ link_rows max_cols title name)%list
           (st_all_l st ++ VStr k1 :: sorted_l)%list
           (st_sheet_index st + 1))).
Proof.
  intros H. unfold _write_report_category. rewrite H. cbn [bind call_action].
  destruct (sort_obj_str v1 ["groupName"; "ruleName"]) as [sorted_l|e];
    cbn [bind]; [|reflexivity].
  destruct (_maps_page (st_wb st) tc name (st_sheet_index st) title sorted_l);
    cbn [bind]; [|reflexivity].
  rewrite <- !app_assoc. reflexivity.
Qed.

(** What a category that was written has done. *)
Lemma write_report_category_ok (tc : string) (max_cols : Z) (st st' : cat_state)
    (k1 : string) (v1 : value) :
  _write_report_category sort_obj_str tc max_cols st k1 v1 = Ok st' ->
  exists name title sorted_l wb,
    _write_report_sheet k1 (st_sheet_index st) = Ok (name, title, VFunc F_maps_page) /\
    sort_obj_str v1 ["groupName"; "ruleName"] = Ok sorted_l /\
    _maps_page (st_wb st) tc name (st_sheet_index st) title sorted_l = Ok wb /\
    st' = mk_cat wb
            (st_t_content st ++ [blank_cell] ++ link_rows max_cols title name)%list
            (st_all_l st ++ VStr k1 :: sorted_l)%list
            (st_sheet_index st + 1).
Proof.
  destruct (write_report_sheet_total k1 (st_sheet_index st)) as [name [title Hs]].
  rewrite (write_report_category_unfold tc max_cols st k1 v1 name title Hs).
  intros H.
  apply bind_inv in H. destruct H as [sorted_l [Hsort H]].
  apply bind_inv in H. destruct H as [wb [Hpage H]].
  exists name, title, sorted_l, wb. repeat split; try assumption.
  congruence.
Qed.

(** The sheet index counts the categories of the policy written so far. *)
Lemma write_report_categories_index (tc : string) (max_cols : Z) :
  forall (its : dict) (st st' : cat_state),
    _write_report_categories sort_obj_str tc max_cols its st = Ok st' ->
    st_sheet_index st' = st_sheet_index st + Z.of_nat (List.length its).
Proof.
  induction its as [|[k1 v1] its IH]; intros st st'; cbn [_write_report_categories].
  - intros [= <-]. simpl. lia.
  - intros H. apply bind_inv in H. destruct H as [st1 [Hstep H]].
    apply IH in H. rewrite H.
    apply write_report_category_ok in Hstep.
    destruct Hstep as (name & title & sorted_l & wb & _ & _ & _ & ->).
    cbn [st_sheet_index List.length]. lia.
Qed.
End ReportFacts.

(** C6.  A category key that the table [_page] does not know raises nothing:
    in a policy whose categories before it were written, with [N] the
    number of those, its records are sorted and handed to [_maps_page] under
    the sheet name ["unknown_N"] and the key as title, as the records of a
    known category are under the name and title of the table; the step
    fails exactly when the step of a known category fails on the same
    records; and when it succeeds the workbook holds a sheet of that name
    whose title cell is the key, and the table of contents links to it. *)
Theorem unknown_category_sheet :
  forall (sort_obj_str : value -> list string -> exc (list value))
         (tc : string) (max_cols : Z) (before : dict) (st0 st : cat_state)
         (k1 : string) (v1 : value),
    lookup k1 _page = None ->
    st_sheet_index st0 = 0 ->
    _write_report_categories sort_obj_str tc max_cols before st0 = Ok st ->
    let N := Z.of_nat (List.length before) in
    let name := ("unknown_" ++ str_of_Z N)%string in
    _write_report_category sort_obj_str tc max_cols st k1 v1
    = (sorted_l <- sort_obj_str v1 ["groupName"; "ruleName"] ;;
       wb <- _maps_page (st_wb st) tc name N (VStr k1) sorted_l ;;
       Ok (mk_cat wb
             (st_t_content st ++ [blank_cell] ++ link_rows max_cols (VStr k1) name)%list
             (st_all_l st ++ VStr k1 :: sorted_l)%list
             (N + 1))) /\
    (forall k t n : string,
        lookup k _page = Some (page t n) ->
        _write_report_category sort_obj_str tc max_cols st k v1
        = (sorted_l <- sort_obj_str v1 ["groupName"; "ruleName"] ;;
           wb <- _maps_page (st_wb st) tc (n ++ "_" ++ str_of_Z N) N (VStr t) sorted_l ;;
           Ok (mk_cat wb
                 (st_t_content st ++ [blank_cell]
                  ++ link_rows max_cols (VStr t) (n ++ "_" ++ str_of_Z N))%list
                 (st_all_l st ++ VStr k :: sorted_l)%list
                 (N + 1))) /\
        is_ok (_write_report_category sort_obj_str tc max_cols st k1 v1)
        = is_ok (_write_report_category sort_obj_str tc max_cols st k v1)) /\
    (forall st' : cat_state,
        _write_report_category sort_obj_str tc max_cols st k1 v1 = Ok st' ->
        (exists sheet,
            In sheet (st_wb st') /\ ws_title sheet = name /\
            In (mk_cell 1 2 (VStr k1) _hdr_1_font VNone None) (ws_cells sheet)) /\
        count_hyper ("#" ++ name ++ "!A1") (st_t_content st')
        = S (count_hyper ("#" ++ name ++ "!A1") (st_t_content st))).
Proof.
  intros sort_obj_str tc max_cols before st0 st k1 v1 Hk H0 Hbefore N name.
  assert (Hidx : st_sheet_index st = N).
  { apply write_report_categories_index in Hbefore. rewrite Hbefore, H0.
    reflexivity. }
  assert (Hunk := write_report_category_unfold sort_obj_str tc max_cols st k1 v1
                    _ _ (write_report_sheet_unknown k1 (st_sheet_index st) Hk)).
  rewrite Hidx in Hunk. fold name in Hunk.
  split; [exact Hunk|]. split.
  - intros k t n Hknown.
    assert (Hkn := write_report_category_unfold sort_obj_str tc max_cols st k v1
                     _ _ (write_report_sheet_known k t n (st_sheet_index st) Hknown)).
    rewrite Hidx in Hkn. split; [exact Hkn|].
    rewrite Hunk, Hkn.
    destruct (sort_obj_str v1 ["groupName"; "ruleName"]) as [sorted_l|e];
      cbn [bind]; [|reflexivity].
    rewrite !is_ok_bind_ok by reflexivity.
    apply maps_page_ok_records.
  - intros st' H. rewrite Hunk in H.
    apply bind_inv in H. destruct H as [sorted_l [_ H]].
    apply bind_inv in H. destruct H as [wb [E H]].
    injection H as <-. cbn [st_wb st_t_content]. split.
    + apply maps_page_sheet in E. exact (proj2 E).
    + rewrite !count_hyper_app. unfold count_hyper at 2 3. unfold link_rows.
      cbn [filter dict_get lookup blank_cell String.eqb Ascii.eqb Bool.eqb].
      rewrite String.eqb_refl. unfold count_hyper. simpl. lia.
Qed.

Lemma unknown_category_sheet_witness :
  is_ok (_write_report_category sort_in_order "MAPS_Policies" 6 (mk_cat [] [] [] 0)
           "rulesUnderFooCategory" (VList [rule_complete])) = true /\
  forall st' : cat_state,
    _write_report_category sort_in_order "MAPS_Policies" 6 (mk_cat [] [] [] 0)
      "rulesUnderFooCategory" (VList [rule_complete]) = Ok st' ->
    count_hyper "#unknown_0!A1" (st_t_content st') = 1%nat.
Proof.
  split.
  - vm_compute. reflexivity.
  - intros st' H.
    exact (proj2 (proj2 (proj2 (unknown_category_sheet
             sort_in_order "MAPS_Policies" 6 [] (mk_cat [] [] [] 0) (mk_cat [] [] [] 0)
             "rulesUnderFooCategory" (VList [rule_complete])
             eq_refl eq_refl eq_refl)) st' H)).
Defined.

Section ReportCounts.

Variable sort_obj_str : value -> list string -> exc (list value).

(** A category adds one sheet, named by its key and the sheet index alone,
    and one link to it. *)
Lemma write_report_category_counts (tc : string) (max_cols : Z)
    (st st' : cat_state) (k1 : string) (v1 : value) :
  _write_report_category sort_obj_str tc max_cols st k1 v1 = Ok st' ->
  exists name title,
    _write_report_sheet k1 (st_sheet_index st) = Ok (name, title, VFunc F_maps_page) /\
    (forall nm, count_title nm (st_wb st')
                = (count_title nm (st_wb st)
                   + if String.eqb name nm then 1 else 0)%nat) /\
    (forall h, count_hyper h (st_t_content st')
               = (count_hyper h (st_t_content st)
                  + if String.eqb ("#" ++ name ++ "!A1") h then 1 else 0)%nat).
Proof.
  intros H. apply write_report_category_ok in H.
  destruct H as (name & title & sorted_l & wb & Hs & _ & Hpage & ->).
  exists name, title. split; [exact Hs|]. cbn [st_wb st_t_content]. split.
  - apply maps_page_sheet in Hpage. exact (proj1 Hpage).
  - intros h. rewrite count_hyper_app. f_equal.
    unfold count_hyper, link_rows.
    cbn [app filter dict_get lookup blank_cell String.eqb Ascii.eqb Bool.eqb].
    destruct (String.eqb ("#" ++ name ++ "!A1") h); reflexivity.
Qed.

Lemma write_report_categories_counts (tc : string) (max_cols : Z) :
  forall (its : dict) (st st' : cat_state),
    _write_report_categories sort_obj_str tc max_cols its st = Ok st' ->
    (forall nm, count_title nm (st_wb st) <= count_title nm (st_wb st'))%nat /\
    (forall h, count_hyper h (st_t_content st) <= count_hyper h (st_t_content st'))%nat.
Proof.
  induction its as [|[k1 v1] its IH]; intros st st'; cbn [_write_report_categories].
  - intros [= <-]. split; intros; lia.
  - intros H. apply bind_inv in H. destruct H as [st1 [Hstep H]].
    apply IH in H. destruct H as [Ht Hh].
    apply write_report_category_counts in Hstep.
    destruct Hstep as (name & title & _ & Ht1 & Hh1).
    split.
    + intros nm. specialize (Ht nm). rewrite Ht1 in Ht. lia.
    + intros h. specialize (Hh h). rewrite Hh1 in Hh. lia.
Qed.

(** The sub-header of a policy adds no link. *)
Lemma write_report_sub_hdr_counts (obj : value) :
  forall (hdrs : dict) (t_content t_content' : list dict),
    _write_report_sub_hdr hdrs obj t_content = Ok t_content' ->
    forall h, count_hyper h t_content' = count_hyper h t_content.
Proof.
  induction hdrs as [|[k v] hdrs IH]; intros t t'; cbn [_write_report_sub_hdr].
  - intros [= <-]. reflexivity.
  - intros H h. apply bind_inv in H. destruct H as [buf [_ H]].
    apply bind_inv in H. destruct H as [da [_ H]].
    apply IH with (h := h) in H. rewrite H, count_hyper_app. unfold count_hyper at 2.
    simpl. lia.
Qed.

(** What one policy adds: it starts its sheets at index 0, so the sheet
    of its first category is named by the key alone. *)
Lemma write_report_policy_counts (tc : string) (max_cols : Z) (wb wb' : workbook)
    (t_content t_content' : list dict) (obj : value) :
  _write_report_policy sort_obj_str tc max_cols wb t_content obj
  = Ok (wb', t_content') ->
  ((forall nm, count_title nm wb <= count_title nm wb')%nat /\
   (forall h, count_hyper h t_content <= count_hyper h t_content')%nat) /\
  (forall (k : string) (v : value) (rest : dict),
      attr_get obj "categoryDetailsInfo" = Ok (VDict ((k, v) :: rest)) ->
      exists name title,
        _write_report_sheet k 0 = Ok (name, title, VFunc F_maps_page) /\
        (count_title name wb + 1 <= count_title name wb')%nat /\
        (count_hyper ("#" ++ name ++ "!A1") t_content + 1
         <= count_hyper ("#" ++ name ++ "!A1") t_content')%nat).
Proof.
  unfold _write_report_policy. intros H.
  apply bind_inv in H. destruct H as [t1 [Hsub H]].
  apply bind_inv in H. destruct H as [c [Hc H]].
  apply bind_inv in H. destruct H as [its [Hits H]].
  apply bind_inv in H. destruct H as [st [Hcats H]].
  apply bind_inv in H. destruct H as [wb1 [Hall H]].
  injection H as <- <-.
  pose proof (write_report_sub_hdr_counts obj _ _ _ Hsub) as Hsubh.
  apply maps_page_sheet in Hall. destruct Hall as [Hall _].
  assert (Hend : forall h,
             (count_hyper h (st_t_content st)
              <= count_hyper h
                   (st_t_content st ++ [blank_cell]
                    ++ link_rows max_cols (VStr "All")
                         ("all_" ++ str_of_Z (st_sheet_index st))))%nat).
  { intros h. rewrite count_hyper_app. lia. }
  assert (Hstart : forall h, count_hyper h (t1 ++ [[]]) = count_hyper h t_content).
  { intros h. rewrite count_hyper_app, Hsubh. unfold count_hyper at 2. simpl. lia. }
  split.
  - apply write_report_categories_counts in Hcats. cbn [st_wb st_t_content] in Hcats.
    destruct Hcats as [Ht Hh]. split.
    + intros nm. specialize (Ht nm). rewrite Hall. lia.
    + intros h. specialize (Hh h). rewrite Hstart in Hh.
      exact (Nat.le_trans _ _ _ Hh (Hend h)).
  - intros k v rest Hk. rewrite Hk in Hc. injection Hc as <-.
    cbn [is_None items] in Hits. injection Hits as <-.
    cbn [_write_report_categories] in Hcats.
    apply bind_inv in Hcats. destruct Hcats as [st1 [Hstep Hcats]].
    apply write_report_category_counts in Hstep. cbn [st_sheet_index st_wb st_t_content] in Hstep.
    destruct Hstep as (name & title & Hs & Ht1 & Hh1).
    apply write_report_categories_counts in Hcats. destruct Hcats as [Ht Hh].
    exists name, title. split; [exact Hs|]. split.
    + specialize (Ht name). rewrite Ht1, String.eqb_refl in Ht.
      rewrite Hall. lia.
    + specialize (Hh ("#" ++ name ++ "!A1")%string).
      rewrite Hh1, String.eqb_refl, Hstart in Hh.
      exact (Nat.le_trans _ _ _ Hh (Hend _)).
Qed.

End ReportCounts.

Section ReportRun.

Variable sort_obj_str : value -> list string -> exc (list value).

Lemma write_report_policies_app (tc : string) (max_cols : Z) :
  forall (objs objs' : list value) (wb : workbook) (t_content : list dict)
         (r : workbook * list dict),
    _write_report_policies sort_obj_str tc max_cols (objs ++ objs') wb t_content = Ok r ->
    exists wb1 t1,
      _write_report_policies sort_obj_str tc max_cols objs wb t_content = Ok (wb1, t1) /\
      _write_report_policies sort_obj_str tc max_cols objs' wb1 t1 = Ok r.
Proof.
  induction objs as [|obj objs IH]; intros objs' wb t r H.
  - exists wb, t. split; [reflexivity | exact H].
  - cbn [app _write_report_policies] in *.
    apply bind_inv in H. destruct H as [[wb0 t0] [Hp H]].
    apply IH in H. destruct H as (wb1 & t1 & H1 & H2).
    exists wb1, t1. rewrite Hp. cbn [bind]. split; assumption.
Qed.

Lemma write_report_policies_counts (tc : string) (max_cols : Z) :
  forall (objs : list value) (wb wb' : workbook) (t_content t_content' : list dict),
    _write_report_policies sort_obj_str tc max_cols objs wb t_content
    = Ok (wb', t_content') ->
    (forall nm, count_title nm wb <= count_title nm wb')%nat /\
    (forall h, count_hyper h t_content <= count_hyper h t_content')%nat.
Proof.
  induction objs as [|obj objs IH]; intros wb wb' t t'; cbn [_write_report_policies].
  - intros [= <- <-]. split; intros; lia.
  - intros H. apply bind_inv in H. destruct H as [[wb0 t0] [Hp H]].
    apply IH in H. destruct H as [Ht Hh].
    apply write_report_policy_counts in Hp. destruct Hp as [[Ht0 Hh0] _].
    split.
    + intros nm. exact (Nat.le_trans _ _ _ (Ht0 nm) (Ht nm)).
    + intros h. exact (Nat.le_trans _ _ _ (Hh0 h) (Hh h)).
Qed.

(** A policy whose first category is [k], wherever it stands in the input,
    adds a sheet and a link under the name of [k] at index 0. *)
Lemma write_report_policies_first_key (tc : string) (max_cols : Z)
    (pre post : list value) (obj : value) (k : string) (v : value) (rest : dict)
    (wb wb' : workbook) (t_content t_content' : list dict) :
  attr_get obj "categoryDetailsInfo" = Ok (VDict ((k, v) :: rest)) ->
  _write_report_policies sort_obj_str tc max_cols (pre ++ obj :: post) wb t_content
  = Ok (wb', t_content') ->
  exists name title,
    _write_report_sheet k 0 = Ok (name, title, VFunc F_maps_page) /\
    (count_title name wb + 1 <= count_title name wb')%nat /\
    (count_hyper ("#" ++ name ++ "!A1") t_content + 1
     <= count_hyper ("#" ++ name ++ "!A1") t_content')%nat.
Proof.
  intros Hk H.
  apply write_report_policies_app in H. destruct H as (wb1 & t1 & Hpre & H).
  cbn [_write_report_policies] in H.
  apply bind_inv in H. destruct H as [[wb2 t2] [Hp Hpost]].
  apply write_report_policies_counts in Hpre. destruct Hpre as [Ht1 Hh1].
  apply write_report_policies_counts in Hpost. destruct Hpost as [Ht3 Hh3].
  apply write_report_policy_counts in Hp. destruct Hp as [_ Hp].
  destruct (Hp k v rest Hk) as (name & title & Hs & Ht2 & Hh2).
  exists name, title. split; [exact Hs|]. split.
  - specialize (Ht1 name). specialize (Ht3 name). lia.
  - specialize (Hh1 ("#" ++ name ++ "!A1")%string).
    specialize (Hh3 ("#" ++ name ++ "!A1")%string). lia.
Qed.

End ReportRun.

(** C7.  The sheet name of a category is a function of its key and of its
    position among the categories of its own policy, and the position
    restarts at 0 with every policy: when two policies of the input have the
    same key as their first category, a run that completes has created
    two sheets under the one name that key gets at index 0, and written two
    links to the one anchor made from that name. *)
Theorem sheet_names_repeat_across_policies :
  forall (sort_obj_str : value -> list string -> exc (list value))
         (new_report : workbook) (EXIT_STATUS_OK : Z)
         (k : string) (obj1 obj2 v1 v2 : value) (rest1 rest2 : dict)
         (pre mid post : list value) (report : string)
         (rep : report_file) (status : Z),
    attr_get obj1 "categoryDetailsInfo" = Ok (VDict ((k, v1) :: rest1)) ->
    attr_get obj2 "categoryDetailsInfo" = Ok (VDict ((k, v2) :: rest2)) ->
    _write_report sort_obj_str new_report EXIT_STATUS_OK
      (VList (pre ++ obj1 :: mid ++ obj2 :: post)) report = Ok (rep, status) ->
    exists name title,
      _write_report_sheet k 0 = Ok (name, title, VFunc F_maps_page) /\
      (count_title name new_report + 2 <= count_title name (rep_wb rep))%nat /\
      (2 <= count_hyper ("#" ++ name ++ "!A1") (rep_t_content rep))%nat.
Proof.
  intros sort_obj_str new_report EXIT_STATUS_OK k obj1 obj2 v1 v2 rest1 rest2
         pre mid post report rep status Hk1 Hk2 H.
  unfold _write_report in H.
  apply bind_inv in H. destruct H as [[t0 max_cols] [_ H]].
  cbn [py_iter bind] in H.
  apply bind_inv in H. destruct H as [[wb t] [Hrun H]].
  apply bind_inv in H. destruct H as [widths [_ H]].
  injection H as <- _. cbn [rep_wb rep_t_content].
  change (pre ++ obj1 :: mid ++ obj2 :: post)%list
    with (pre ++ (obj1 :: mid) ++ obj2 :: post)%list in Hrun.
  rewrite app_assoc in Hrun.
  apply write_report_policies_app in Hrun. destruct Hrun as (wb1 & t1 & Hfirst & Hsecond).
  destruct (write_report_policies_first_key sort_obj_str _ _ pre mid obj1 k v1 rest1
              _ _ _ _ Hk1 Hfirst) as (name & title & Hs & Ht1 & Hh1).
  destruct (write_report_policies_first_key sort_obj_str _ _ [] post obj2 k v2 rest2
              _ _ _ _ Hk2 Hsecond) as (name' & title' & Hs' & Ht2 & Hh2).
  rewrite Hs in Hs'. injection Hs' as <- <-.
  exists name, title. split; [exact Hs|]. split; lia.
Qed.

Lemma sheet_names_repeat_across_policies_witness :
  is_ok (_write_report sort_in_order [] 0
           (VList [policy "gold" "rulesUnderPortCategory" [rule_complete];
                   policy "silver" "rulesUnderPortCategory" [rule_complete]])
           "maps.xlsx") = true /\
  forall (rep : report_file) (status : Z),
    _write_report sort_in_order [] 0
      (VList [policy "gold" "rulesUnderPortCategory" [rule_complete];
              policy "silver" "rulesUnderPortCategory" [rule_complete]])
      "maps.xlsx" = Ok (rep, status) ->
    (2 <= count_title "port_0" (rep_wb rep))%nat /\
    (2 <= count_hyper "#port_0!A1" (rep_t_content rep))%nat.
Proof.
  split.
  - vm_compute. reflexivity.
  - intros rep status H.
    destruct (sheet_names_repeat_across_policies
                sort_in_order [] 0 "rulesUnderPortCategory"
                (policy "gold" "rulesUnderPortCategory" [rule_complete])
                (policy "silver" "rulesUnderPortCategory" [rule_complete])
                (VList [rule_complete]) (VList [rule_complete]) [] []
                [] [] [] "maps.xlsx" rep status eq_refl eq_refl H)
      as (name & title & Hs & Ht & Hh).
    injection Hs as <- _. split; [exact Ht | exact Hh].
Defined.

(** ** Further properties of the record projector *)

(** Walking a path in two stretches. *)
Lemma rule_value_walk_app (a b : list string) :
  forall v : value,
    _rule_value_walk (a ++ b) v = (x <- _rule_value_walk a v ;; _rule_value_walk b x).
Proof.
  induction a as [|k a IH]; intros v; cbn [app _rule_value_walk bind].
  - reflexivity.
  - destruct (attr_get v k) as [x|e]; cbn [bind]; [apply IH | reflexivity].
Qed.

(** X1.  Where the walk has reached a dictionary, one more segment gives
    the value under that key, [None] when the key is absent; where it has
    reached anything else, [None] included, every further segment raises
    [AttributeError]. *)
Theorem rule_value_walk_next_segment :
  forall (kl : list string) (k : string) (rest : list string) (rule v : value),
    _rule_value_walk kl rule = Ok v ->
    (forall d : dict,
        v = VDict d ->
        _rule_value_walk (kl ++ [k]) rule = Ok (dict_get k d) /\
        (lookup k d = None -> _rule_value_walk (kl ++ [k]) rule = Ok VNone)) /\
    (is_dict v = false ->
     _rule_value_walk (kl ++ k :: rest) rule = Raise AttributeError).
Proof.
  intros kl k rest rule v H. split.
  - intros d ->. rewrite rule_value_walk_app, H. cbn. split; [reflexivity|].
    intros Hk. unfold dict_get. now rewrite Hk.
  - intros Hv. rewrite rule_value_walk_app, H. cbn [bind _rule_value_walk].
    destruct v; try discriminate; reflexivity.
Qed.

Lemma rule_value_walk_next_segment_witness :
  _rule_value_walk (["measureDetails"] ++ "measureId" :: []) rule_without_measure
  = Raise AttributeError.
Proof.
  exact (proj2 (rule_value_walk_next_segment
                  ["measureDetails"] "measureId" [] rule_without_measure VNone
                  eq_refl) eq_refl).
Defined.

Lemma str_split_no_slash (s : string) :
  no_slash s = true -> str_split "/" s = [s].
Proof.
  induction s as [|c s IH]; cbn [no_slash str_split]; [reflexivity|].
  intros H. apply andb_prop in H. destruct H as [Hc Hs].
  apply negb_true_iff in Hc. rewrite Hc, (IH Hs). reflexivity.
Qed.

Lemma str_split_segment (s t : string) :
  no_slash s = true ->
  str_split "/" (s ++ "/" ++ t) = s :: str_split "/" t.
Proof.
  induction s as [|c s IH]; intros H.
  - reflexivity.
  - cbn [no_slash] in H. apply andb_prop in H. destruct H as [Hc Hs].
    apply negb_true_iff in Hc.
    change (String c s ++ "/" ++ t)%string with (String c (s ++ "/" ++ t)).
    cbn [str_split]. rewrite Hc, (IH Hs). reflexivity.
Qed.

(** Joining keys with ["/"] and splitting again gives the keys back. *)
Lemma str_split_concat (ks : list string) :
  ks <> [] ->
  forallb no_slash ks = true ->
  str_split "/" (String.concat "/" ks) = ks.
Proof.
  induction ks as [|k ks IH]; intros Hne H; [congruence|].
  cbn [forallb] in H. apply andb_prop in H. destruct H as [Hk Hks].
  destruct ks as [|k' ks].
  - cbn [String.concat]. now apply str_split_no_slash.
  - change (String.concat "/" (k :: k' :: ks))
      with (k ++ "/" ++ String.concat "/" (k' :: ks))%string.
    rewrite str_split_segment by exact Hk.
    rewrite IH; [reflexivity | discriminate | exact Hks].
Qed.

Lemma dict_get_setitem_other (k k' : string) (v : value) (d : dict) :
  String.eqb k' k = false -> dict_get k' (setitem k v d) = dict_get k' d.
Proof.
  intros Hne. unfold dict_get.
  induction d as [|[k0 v0] d IH]; cbn [setitem lookup].
  - now rewrite Hne.
  - destruct (String.eqb k k0) eqn:E; cbn [lookup].
    + apply String.eqb_eq in E. subst k0. now rewrite Hne.
    + destruct (String.eqb k' k0); [reflexivity | exact IH].
Qed.

(** X2.  Flattening and projection fit together: on a dictionary that
    encodes a descriptor tree whose keys hold no ["/"], [_descriptors]
    succeeds, and projecting any descriptor it returns walks the record
    along exactly the keys that lead to that leaf in the tree, then applies
    the leaf's conversion. *)
Theorem descriptors_paths_project :
  forall (obj : dict) (children : list (string * dtree)),
    represents_root obj children ->
    (forall pd, In pd (leaves (Node children)) -> forallb no_slash (fst pd) = true) ->
    _descriptors obj "" = Ok (map (annotate "") (leaves (Node children))) /\
    forall (pd : list string * dict) (rule : value),
      In pd (leaves (Node children)) ->
      _rule_value (annotate "" pd) rule
      = (v0 <- _rule_value_walk (fst pd) rule ;; convert (snd pd) v0).
Proof.
  intros obj children Hrep Hkeys. split.
  - unfold _descriptors. apply descriptors_rec_spec; [lia | exact Hrep].
  - intros pd rule Hin. unfold _rule_value, annotate, convert.
    rewrite dict_get_setitem.
    rewrite !dict_get_setitem_other by reflexivity.
    cbn [is_None bind String.append].
    rewrite str_split_concat;
      [reflexivity | exact (leaves_node_path children pd Hin) | exact (Hkeys pd Hin)].
Qed.

Lemma descriptors_paths_project_witness :
  _rule_value (annotate "" (["measureDetails"; "thresholdDtls"; "thresholdList"],
                            [("d", VStr "Threshold List"); ("c", VInt 12);
                             ("m", VFunc F_generic_list); ("ha", _align_wrap);
                             ("da", _align_wrap)])) rule_complete
  = (v0 <- _rule_value_walk ["measureDetails"; "thresholdDtls"; "thresholdList"]
             rule_complete ;;
     _generic_list v0).
Proof.
  assert (H : represents_root _rule_conv rule_conv_tree).
  { unfold represents_root, ordered_by. cbn. repeat split. }
  assert (K : forall pd, In pd (leaves (Node rule_conv_tree)) ->
                         forallb no_slash (fst pd) = true).
  { intros pd Hin. cbn in Hin.
    repeat (destruct Hin as [<- | Hin]; [reflexivity|]). contradiction. }
  refine (proj2 (descriptors_paths_project _rule_conv rule_conv_tree H K) _
                rule_complete _).
  cbn. do 11 right. left. reflexivity.
Defined.

(** ** Further properties of the schema flattener *)

Lemma descriptors_loop_leaves (rec : dict -> string -> exc (list dict))
    (obj : dict) (base_ref : string) (P : dict -> Prop) :
  (forall (k : string) (d : dict),
      is_None (dict_get "c" d) = false ->
      P (setitem "k" (VStr (base_ref ++ k)) d)) ->
  (forall (k : string) (d : dict) (sub : list dict),
      rec d ((base_ref ++ k) ++ "/") = Ok sub -> Forall P sub) ->
  forall (keys : list value) (r_list l : list dict),
    Forall P r_list ->
    _descriptors_loop rec obj base_ref keys r_list = Ok l ->
    Forall P l.
Proof.
  intros Hleaf Hrec.
  induction keys as [|k keys IH]; intros r_list l Hr; cbn [_descriptors_loop].
  - intros [= <-]. exact Hr.
  - intros H. apply bind_inv in H. destruct H as [d [_ H]].
    destruct d as [| | | | | | |dk| |]; try (eapply IH; eassumption).
    destruct (is_None (dict_get "c" dk)) eqn:Ec; cbn [negb] in H.
    + apply bind_inv in H. destruct H as [ref [Href H]].
      apply bind_inv in H. destruct H as [sub [Hsub H]].
      destruct k; try discriminate. injection Href as <-.
      eapply IH; [|exact H]. apply Forall_app. split; [exact Hr|].
      eapply Hrec. exact Hsub.
    + apply bind_inv in H. destruct H as [ref [Href H]].
      destruct k; try discriminate. injection Href as <-.
      eapply IH; [|exact H]. apply Forall_app. split; [exact Hr|].
      constructor; [|constructor]. now apply Hleaf.
Qed.

Lemma descriptors_rec_leaves :
  forall (fuel : nat) (obj : dict) (base_ref : string) (l : list dict),
    _descriptors_rec fuel obj base_ref = Ok l ->
    Forall (fun d => is_None (dict_get "c" d) = false /\
                     exists s, dict_get "k" d = VStr (base_ref ++ s)) l.
Proof.
  induction fuel as [|fuel IH]; intros obj base_ref l; cbn [_descriptors_rec].
  - discriminate.
  - intros H. apply bind_inv in H. destruct H as [o [_ H]].
    apply bind_inv in H. destruct H as [keys [_ H]].
    eapply descriptors_loop_leaves; [| |constructor|exact H].
    + intros k d Hc. split.
      * now rewrite dict_get_setitem_other by reflexivity.
      * exists k. apply dict_get_setitem.
    + intros k d sub Hsub. apply IH in Hsub.
      eapply Forall_impl; [|exact Hsub]. cbn beta.
      intros d0 [Hc [s Hs]]. split; [exact Hc|].
      exists (k ++ "/" ++ s)%string. rewrite Hs. now rewrite !append_assoc.
Qed.

(** X3.  Whatever dictionary it is given, every descriptor [_descriptors]
    returns defines a column width and carries under ['k'] a string that
    starts with the base reference: [_create_sheet] finds its ['c'] and
    [_rule_value] its path. *)
Theorem descriptors_leaves_have_width_and_path :
  forall (obj : dict) (base_ref : string) (l : list dict),
    _descriptors obj base_ref = Ok l ->
    Forall (fun d => is_None (dict_get "c" d) = false /\
                     has_key "c" d = true /\
                     exists s, dict_get "k" d = VStr (base_ref ++ s)) l.
Proof.
  intros obj base_ref l H. apply descriptors_rec_leaves in H.
  eapply Forall_impl; [|exact H]. cbn beta. intros d [Hc Hk].
  split; [exact Hc|]. split; [|exact Hk].
  unfold has_key. unfold dict_get in Hc. destruct (lookup "c" d); [reflexivity|].
  discriminate.
Qed.

Lemma descriptors_leaves_have_width_and_path_witness :
  Forall (fun d => is_None (dict_get "c" d) = false /\
                   has_key "c" d = true /\
                   exists s, dict_get "k" d = VStr ("" ++ s))
         (map (annotate "") (leaves (Node rule_conv_tree))).
Proof.
  exact (descriptors_leaves_have_width_and_path _rule_conv ""
           (map (annotate "") (leaves (Node rule_conv_tree))) eq_refl).
Defined.

(** X4.  A key listed under ['o'] whose entry is missing from the node or
    is not a dictionary contributes nothing: the loop over the keys gives
    what it gives over the keys that name a dictionary. *)
Theorem descriptors_loop_skips_non_nodes :
  forall (rec : dict -> string -> exc (list dict)) (obj : dict)
         (base_ref : string) (ks : list string) (r_list : list dict),
    _descriptors_loop rec obj base_ref (map VStr ks) r_list
    = _descriptors_loop rec obj base_ref
        (map VStr (filter (fun k => is_dict (dict_get k obj)) ks)) r_list.
Proof.
  intros rec obj base_ref ks. induction ks as [|k ks IH]; intros r_list.
  - reflexivity.
  - cbn [map filter]. destruct (dict_get k obj) as [| | | | | | |dk| |] eqn:E;
      cbn [is_dict map _descriptors_loop get_obj bind]; rewrite E;
      try apply IH.
    destruct (negb (is_None (dict_get "c" dk))); cbn [str_add bind].
    + apply IH.
    + destruct (rec dk ((base_ref ++ k) ++ "/")); cbn [bind];
        [apply IH | reflexivity].
Qed.

(** ** Further properties of the sheets *)









(** X7.  Row rendering never hands a boolean, a list or a tuple to a cell:
    whatever the descriptor and the record, what it writes is [None], a
    string, or a value of another kind just as projection returned it. *)
Theorem maps_page_buf_never_raw_sequence :
  forall (d : dict) (rule v : value),
    _maps_page_buf d rule = Ok v ->
    is_raw_cell v = true /\
    (forall p, _rule_value d rule = Ok p -> is_plain p = true -> v = p).
Proof.
  intros d rule v. unfold _maps_page_buf.
  destruct (_rule_value d rule) as [p|e]; cbn [bind]; [|discriminate].
  destruct p; cbn [is_None negb bind]; intros H;
    try (injection H as <-; split;
         [reflexivity | intros p [= <-] Hp; (reflexivity || discriminate Hp)]).
  - apply bind_inv in H. destruct H as [s [_ [= <-]]].
    split; [reflexivity | intros p [= <-]; discriminate].
  - apply bind_inv in H. destruct H as [s [_ [= <-]]].
    split; [reflexivity | intros p [= <-]; discriminate].
Qed.

Lemma maps_page_buf_never_raw_sequence_witness :
  is_raw_cell (VStr "10, 20") = true.
Proof.
  exact (proj1 (maps_page_buf_never_raw_sequence
                  threshold_list_descriptor rule_complete (VStr "10, 20") eq_refl)).
Defined.

(** X8.  For rendering, the pass-through conversion changes nothing, and
    the list conversion changes nothing where the record holds a list: two
    descriptors with the same path, one with such a conversion and one
    without any, give the same cell or raise the same error. *)
Theorem conversions_leave_rendering :
  forall (d d' : dict) (rule : value) (s : string),
    dict_get "k" d = VStr s ->
    dict_get "k" d' = VStr s ->
    dict_get "m" d' = VNone ->
    (dict_get "m" d = VFunc F_place_holder ->
     _rule_value d rule = _rule_value d' rule /\
     _maps_page_buf d rule = _maps_page_buf d' rule) /\
    (dict_get "m" d = VFunc F_generic_list ->
     forall l : list value,
       _rule_value_walk (str_split "/" s) rule = Ok (VList l) ->
       _maps_page_buf d rule = _maps_page_buf d' rule).
Proof.
  intros d d' rule s Hk Hk' Hm'. split.
  - intros Hm.
    assert (E : _rule_value d rule = _rule_value d' rule).
    { unfold _rule_value. rewrite Hk, Hk', Hm, Hm'. cbn [is_None bind].
      destruct (_rule_value_walk (str_split "/" s) rule); reflexivity. }
    split; [exact E|]. unfold _maps_page_buf. now rewrite E.
  - intros Hm l Hwalk. unfold _maps_page_buf, _rule_value.
    rewrite Hk, Hk', Hm, Hm'. cbn [is_None bind]. rewrite Hwalk.
    cbn [bind call _generic_list is_None negb].
    destruct (str_join ", " l); reflexivity.
Qed.

Lemma conversions_leave_rendering_witness :
  _maps_page_buf threshold_list_descriptor rule_complete
  = _maps_page_buf [("k", VStr "measureDetails/thresholdDtls/thresholdList")]
                   rule_complete.
Proof.
  exact (proj2 (conversions_leave_rendering
                  threshold_list_descriptor
                  [("k", VStr "measureDetails/thresholdDtls/thresholdList")]
                  rule_complete "measureDetails/thresholdDtls/thresholdList"
                  eq_refl eq_refl eq_refl)
               eq_refl [VStr "10"; VStr "20"] eq_refl).
Defined.

(** ** Further properties of the report writer *)

Lemma no_underscore_uint (d : Decimal.uint) :
  no_underscore (NilEmpty.string_of_uint d) = true.
Proof. induction d; cbn; auto. Qed.

Lemma no_underscore_str_of_Z (n : Z) : no_underscore (str_of_Z n) = true.
Proof.
  unfold str_of_Z, NilZero.string_of_int, NilZero.string_of_uint.
  destruct (Z.to_int n) as [d|d]; destruct d; cbn [no_underscore];
    try reflexivity; cbn; apply no_underscore_uint.
Qed.

Lemma str_of_Z_inj (i j : Z) : str_of_Z i = str_of_Z j -> i = j.
Proof.
  unfold str_of_Z. intros H.
  assert (Hnn : forall n, Z.to_int n <> Decimal.Pos Decimal.Nil /\
                          Z.to_int n <> Decimal.Neg Decimal.Nil).
  { intros [|p|p]; cbn; split; try discriminate;
      intros [= E]; exact (DecimalPos.Unsigned.to_uint_nonnil p E). }
  apply (f_equal NilZero.int_of_string) in H.
  rewrite !NilZero.isi in H; try apply Hnn.
  injection H as H. apply (f_equal Z.of_int) in H.
  now rewrite !DecimalZ.of_to in H.
Qed.

Lemma no_underscore_app (a s : string) :
  no_underscore (a ++ "_" ++ s) = false.
Proof.
  induction a as [|c a IH]; [reflexivity|].
  change (no_underscore (String c a ++ "_" ++ s))
    with (negb (Ascii.eqb c "_") && no_underscore (a ++ "_" ++ s)).
  rewrite IH. apply andb_false_r.
Qed.

(** What follows the last ["_"] of a name is determined by the name. *)
Lemma underscore_suffix_inj (s1 s2 : string) :
  no_underscore s1 = true -> no_underscore s2 = true ->
  forall a b : string,
    (a ++ "_" ++ s1 = b ++ "_" ++ s2)%string -> s1 = s2.
Proof.
  intros H1 H2. induction a as [|c a IH]; intros [|c' b] H; cbn in H.
  - now injection H.
  - injection H as <- H. rewrite H in H1.
    change (b ++ String "_" s2)%string with (b ++ "_" ++ s2)%string in H1.
    now rewrite no_underscore_app in H1.
  - injection H as -> H. rewrite <- H in H2.
    change (a ++ String "_" s1)%string with (a ++ "_" ++ s1)%string in H2.
    now rewrite no_underscore_app in H2.
  - injection H as _ H. exact (IH b H).
Qed.

Lemma write_report_sheet_name (k : string) (i : Z) (name : string) (t a : value) :
  _write_report_sheet k i = Ok (name, t, a) ->
  exists n : string, name = (n ++ "_" ++ str_of_Z i)%string.
Proof.
  destruct (lookup k _page) as [p|] eqn:E.
  - destruct (page_lookup k p E) as [t' [n ->]].
    rewrite (write_report_sheet_known k t' n i E). intros [= <- _ _]. now exists n.
  - rewrite (write_report_sheet_unknown k i E). intros [= <- _ _].
    now exists "unknown".
Qed.

(** X9.  Sheets made for different indices never share a name, whatever
    their category keys, and no category sheet has the name of the "All"
    sheet of another index.  Within one policy, where every sheet has its own
    index, all sheet names differ. *)
Theorem sheet_names_differ_within_policy :
  forall (k1 k2 : string) (i j : Z) (n1 n2 : string) (t1 t2 a1 a2 : value),
    _write_report_sheet k1 i = Ok (n1, t1, a1) ->
    _write_report_sheet k2 j = Ok (n2, t2, a2) ->
    i <> j ->
    n1 <> n2 /\ n1 <> ("all_" ++ str_of_Z j)%string.
Proof.
  intros k1 k2 i j n1 n2 t1 t2 a1 a2 H1 H2 Hij.
  apply write_report_sheet_name in H1. destruct H1 as [m1 ->].
  apply write_report_sheet_name in H2. destruct H2 as [m2 ->].
  split; intros E; apply Hij, str_of_Z_inj.
  - exact (underscore_suffix_inj _ _ (no_underscore_str_of_Z i)
             (no_underscore_str_of_Z j) m1 m2 E).
  - exact (underscore_suffix_inj _ _ (no_underscore_str_of_Z i)
             (no_underscore_str_of_Z j) m1 "all" E).
Qed.

Lemma sheet_names_differ_within_policy_witness :
  "port_0" <> "unknown_1" /\ "port_0" <> "all_1".
Proof.
  exact (sheet_names_differ_within_policy
           "rulesUnderPortCategory" "rulesUnderFooCategory" 0 1
           "port_0" "unknown_1" (VStr "Port Rules") (VStr "rulesUnderFooCategory")
           (VFunc F_maps_page) (VFunc F_maps_page) eq_refl eq_refl
           ltac:(discriminate)).
Defined.

Lemma insert_at_length {A : Type} (x : A) (front l : list A) :
  insert_at (List.length front) x (front ++ l) = (front ++ x :: l)%list.
Proof. induction front as [|y front IH]; cbn; [now destruct l | now rewrite IH]. Qed.

Lemma maps_page_inserted (wb wb' : workbook) (tc name : string) (i : Z)
    (title : value) (rule_list : list value) :
  _maps_page wb tc name i title rule_list = Ok wb' ->
  exists sheet, wb' = create_sheet wb i sheet /\ ws_title sheet = name.
Proof.
  rewrite maps_page_unfold. intros H.
  apply bind_inv in H. destruct H as [rows [_ H]].
  injection H as <-. eexists. split; reflexivity.
Qed.

Section ReportLayout.

Variable sort_obj_str : value -> list string -> exc (list value).

(** The categories written so far stand in front, in order. *)
Lemma write_report_categories_front (tc : string) (max_cols : Z) (wb0 : workbook) :
  forall (its : dict) (st st' : cat_state) (front : list worksheet),
    _write_report_categories sort_obj_str tc max_cols its st = Ok st' ->
    st_wb st = (front ++ wb0)%list ->
    st_sheet_index st = Z.of_nat (List.length front) ->
    exists added,
      st_wb st' = ((front ++ added) ++ wb0)%list /\
      map ws_title added = category_names (st_sheet_index st) its /\
      List.length added = List.length its.
Proof.
  induction its as [|[k1 v1] its IH]; intros st st' front;
    cbn [_write_report_categories].
  - intros [= <-] Hwb _. exists []. rewrite app_nil_r. now split.
  - intros H Hwb Hidx. apply bind_inv in H. destruct H as [st1 [Hstep H]].
    apply write_report_category_ok in Hstep.
    destruct Hstep as (name & title & sorted_l & wb & Hs & _ & Hpage & ->).
    apply maps_page_inserted in Hpage. destruct Hpage as (sheet & -> & Ht).
    unfold create_sheet in H. rewrite Hwb, Hidx, Nat2Z.id, insert_at_length in H.
    specialize (IH _ st' (front ++ [sheet])%list H).
    cbn [st_wb st_sheet_index] in IH.
    destruct IH as (added & Hwb' & Hnames & Hlen).
    + now rewrite <- app_assoc.
    + rewrite length_app. cbn [List.length]. lia.
    + exists (sheet :: added). split; [|split].
      * rewrite Hwb'. now rewrite <- !app_assoc.
      * cbn [map category_names]. rewrite Hs, Ht. f_equal.
        rewrite Hnames, Hidx. reflexivity.
      * cbn [List.length]. now rewrite Hlen.
Qed.

(** The rule list of the "All" sheet grows by the label and the sorted
    records of each category. *)
Lemma write_report_categories_all (tc : string) (max_cols : Z) :
  forall (its : dict) (st st' : cat_state),
    _write_report_categories sort_obj_str tc max_cols its st = Ok st' ->
    exists l,
      all_rules sort_obj_str its = Ok l /\
      st_all_l st' = (st_all_l st ++ l)%list.
Proof.
  induction its as [|[k1 v1] its IH]; intros st st'; cbn [_write_report_categories].
  - intros [= <-]. exists []. now rewrite app_nil_r.
  - intros H. apply bind_inv in H. destruct H as [st1 [Hstep H]].
    apply write_report_category_ok in Hstep.
    destruct Hstep as (name & title & sorted_l & wb & _ & Hsort & _ & ->).
    apply IH in H. destruct H as (l & Hl & Hall). cbn [st_all_l] in Hall.
    exists (VStr k1 :: sorted_l ++ l)%list. cbn [all_rules].
    rewrite Hsort, Hl. cbn [bind]. split; [reflexivity|].
    rewrite Hall, <- app_assoc. reflexivity.
Qed.

(** A policy only puts sheets in front of the workbook. *)
Lemma policy_sheets_front_only (tc : string) (max_cols : Z) (wb wb' : workbook)
    (t_content t_content' : list dict) (obj : value) :
  _write_report_policy sort_obj_str tc max_cols wb t_content obj
  = Ok (wb', t_content') ->
  exists added, wb' = (added ++ wb)%list.
Proof.
  intros H. unfold _write_report_policy in H.
  apply bind_inv in H. destruct H as [t1 [_ H]].
  apply bind_inv in H. destruct H as [c [_ H]].
  apply bind_inv in H. destruct H as [its [_ H]].
  apply bind_inv in H. destruct H as [st [Hcats H]].
  apply bind_inv in H. destruct H as [wb1 [Hall H]].
  injection H as <- _.
  pose proof (write_report_categories_index _ _ _ _ _ _ Hcats) as Hidx.
  apply (write_report_categories_front tc max_cols wb its _ st []) in Hcats;
    [|reflexivity|reflexivity].
  destruct Hcats as (added & Hwb & _ & Hlen).
  cbn [app st_sheet_index] in Hwb, Hidx.
  apply maps_page_inserted in Hall. destruct Hall as (sheet & -> & _).
  exists (added ++ [sheet])%list.
  unfold create_sheet. rewrite Hwb, Hidx, Z.add_0_l, Nat2Z.id, <- Hlen.
  rewrite insert_at_length. now rewrite <- app_assoc.
Qed.

(** X10.  A policy that is written adds one sheet per category and the
    "All" sheet, and puts them, in this order, in front of the sheets the
    workbook held before: each policy restarts at index 0, so the sheets of
    a later policy come before those of an earlier one. *)
Theorem policy_sheets_in_front :
  forall (tc : string) (max_cols : Z) (wb wb' : workbook)
         (t_content t_content' : list dict) (obj : value),
    _write_report_policy sort_obj_str tc max_cols wb t_content obj
    = Ok (wb', t_content') ->
    exists (its : dict) (added : list worksheet),
      categories_of obj = Ok its /\
      wb' = (added ++ wb)%list /\
      map ws_title added
      = (category_names 0 its
         ++ [("all_" ++ str_of_Z (Z.of_nat (List.length its)))%string])%list /\
      List.length added = S (List.length its).
Proof.
  intros tc max_cols wb wb' t t' obj H. unfold _write_report_policy in H.
  apply bind_inv in H. destruct H as [t1 [_ H]].
  apply bind_inv in H. destruct H as [c [Hc H]].
  apply bind_inv in H. destruct H as [its [Hits H]].
  apply bind_inv in H. destruct H as [st [Hcats H]].
  apply bind_inv in H. destruct H as [wb1 [Hall H]].
  injection H as <- _.
  pose proof (write_report_categories_index _ _ _ _ _ _ Hcats) as Hidx.
  apply (write_report_categories_front tc max_cols wb its _ st []) in Hcats;
    [|reflexivity|reflexivity].
  destruct Hcats as (added & Hwb & Hnames & Hlen).
  cbn [app st_sheet_index] in Hwb, Hnames, Hidx.
  apply maps_page_inserted in Hall. destruct Hall as (sheet & -> & Ht).
  exists its, (added ++ [sheet])%list. split; [|split; [|split]].
  - unfold categories_of. rewrite Hc. cbn [bind]. exact Hits.
  - unfold create_sheet. rewrite Hwb, Hidx, Z.add_0_l, Nat2Z.id, <- Hlen.
    rewrite insert_at_length. now rewrite <- app_assoc.
  - rewrite map_app, Hnames. cbn [map]. rewrite Ht, Hidx. reflexivity.
  - rewrite length_app, Hlen. cbn [List.length]. lia.
Qed.

(** X11.  The "All" sheet of a policy is the page of this rule list: for
    each category in the order of the export, the category key as a label,
    then the records of the category as [sort_obj_str] ordered them. *)
Theorem policy_all_sheet_rules :
  forall (tc : string) (max_cols : Z) (wb wb' : workbook)
         (t_content t_content' : list dict) (obj : value),
    _write_report_policy sort_obj_str tc max_cols wb t_content obj
    = Ok (wb', t_content') ->
    exists (its : dict) (l : list value) (wb_categories : workbook),
      categories_of obj = Ok its /\
      all_rules sort_obj_str its = Ok l /\
      _maps_page wb_categories tc
        ("all_" ++ str_of_Z (Z.of_nat (List.length its)))
        (Z.of_nat (List.length its)) (VStr "All") l = Ok wb'.
Proof.
  intros tc max_cols wb wb' t t' obj H. unfold _write_report_policy in H.
  apply bind_inv in H. destruct H as [t1 [_ H]].
  apply bind_inv in H. destruct H as [c [Hc H]].
  apply bind_inv in H. destruct H as [its [Hits H]].
  apply bind_inv in H. destruct H as [st [Hcats H]].
  apply bind_inv in H. destruct H as [wb1 [Hall H]].
  injection H as <- _.
  pose proof (write_report_categories_index _ _ _ _ _ _ Hcats) as Hidx.
  apply write_report_categories_all in Hcats. destruct Hcats as (l & Hl & Hal).
  cbn [st_all_l st_sheet_index app] in Hal, Hidx.
  exists its, l, (st_wb st). split; [|split].
  - unfold categories_of. rewrite Hc. cbn [bind]. exact Hits.
  - exact Hl.
  - rewrite Hal, Hidx, Z.add_0_l in Hall. exact Hall.
Qed.

End ReportLayout.

Lemma policy_sheets_in_front_witness :
  exists added : list worksheet,
    map ws_title added = ["port_0"; "all_1"] /\ List.length added = 2%nat.
Proof.
  destruct (_write_report_policy sort_in_order "MAPS_Policies" 6 [] []
              (policy "gold" "rulesUnderPortCategory" [rule_complete]))
    as [[wb' t']|e] eqn:E.
  - destruct (policy_sheets_in_front sort_in_order _ _ _ _ _ _ _ E)
      as (its & added & Hc & _ & Hn & Hl).
    vm_compute in Hc. injection Hc as <-.
    exists added. split; [exact Hn | exact Hl].
  - vm_compute in E. discriminate E.
Defined.

Lemma policy_all_sheet_rules_witness :
  exists (l : list value) (wb_categories wb' : workbook),
    all_rules sort_in_order [("rulesUnderPortCategory", VList [rule_complete])]
    = Ok l /\
    _maps_page wb_categories "MAPS_Policies" "all_1" 1 (VStr "All") l = Ok wb'.
Proof.
  destruct (_write_report_policy sort_in_order "MAPS_Policies" 6 [] []
              (policy "gold" "rulesUnderPortCategory" [rule_complete]))
    as [[wb' t']|e] eqn:E.
  - destruct (policy_all_sheet_rules sort_in_order _ _ _ _ _ _ _ E)
      as (its & l & wbc & Hc & Hl & Hp).
    vm_compute in Hc. injection Hc as <-.
    exists l, wbc, wb'. split; [exact Hl | exact Hp].
  - vm_compute in E. discriminate E.
Defined.

Section ReportEdges.

Variable sort_obj_str : value -> list string -> exc (list value).

(** The sub-header of a policy that is a dictionary: one row per attribute
    column, none of them a link. *)
Lemma write_report_sub_hdr_dict (d : dict) (t_content : list dict) :
  exists extra : list dict,
    _write_report_sub_hdr _tc_headers (VDict d) t_content
    = Ok (t_content ++ extra)%list /\
    List.length extra = 6%nat /\
    Forall (fun row => is_str (dict_get "disp" row) = true /\
                       dict_get "font" row = VStr "hdr_2") extra.
Proof.
  eexists. split; [|split].
  - cbn [_write_report_sub_hdr _tc_headers attr_get bind subscript _tc_header
         getitem lookup String.eqb Ascii.eqb Bool.eqb].
    rewrite <- !app_assoc. cbn [app]. reflexivity.
  - reflexivity.
  - repeat (constructor;
            [split; [|reflexivity];
             match goal with
             | |- context [dict_get ?k d] => destruct (dict_get k d) as [| [|] | | | | | | | |]
             end; reflexivity|]).
    constructor.
Qed.

(** X12.  A policy that is a dictionary without categories, with
    ['categoryDetailsInfo'] absent, null or empty, is always written: it
    puts one sheet in front of the workbook, named ["all_0"] and holding the
    link, the title and the headers only. *)
Theorem policy_without_categories :
  forall (tc : string) (max_cols : Z) (wb : workbook) (t_content : list dict)
         (d : dict),
    dict_get "categoryDetailsInfo" d = VNone \/
    dict_get "categoryDetailsInfo" d = VDict [] ->
    exists t_content' : list dict,
      _write_report_policy sort_obj_str tc max_cols wb t_content (VDict d)
      = Ok (header_sheet tc "all_0" (VStr "All") :: wb, t_content').
Proof.
  intros tc max_cols wb t d Hc. unfold _write_report_policy.
  destruct (write_report_sub_hdr_dict d t) as (extra & -> & _).
  cbn [bind attr_get].
  assert (E : items (if is_None (dict_get "categoryDetailsInfo" d)
                     then VDict [] else dict_get "categoryDetailsInfo" d) = Ok []).
  { destruct Hc as [-> | ->]; reflexivity. }
  rewrite E. cbn [bind _write_report_categories st_sheet_index st_wb st_all_l
                  st_t_content].
  rewrite maps_page_unfold. cbn [_maps_page_rows bind].
  eexists. reflexivity.
Qed.

End ReportEdges.

Lemma policy_without_categories_witness :
  exists t_content' : list dict,
    _write_report_policy sort_in_order "MAPS_Policies" 6 [] []
      (VDict [("policyName", VStr "empty"); ("categoryDetailsInfo", VNone)])
    = Ok ([header_sheet "MAPS_Policies" "all_0" (VStr "All")], t_content').
Proof.
  exact (policy_without_categories sort_in_order "MAPS_Policies" 6 [] []
           [("policyName", VStr "empty"); ("categoryDetailsInfo", VNone)]
           (or_introl eq_refl)).
Defined.

Section ReportShape.

Variable sort_obj_str : value -> list string -> exc (list value).
Variable new_report : workbook.
Variable EXIT_STATUS_OK : Z.

(** [_write_report] with the constant parts of the table of contents
    evaluated. *)
Lemma write_report_unfold (json_obj : value) (report : string) :
  _write_report sort_obj_str new_report EXIT_STATUS_OK json_obj report
  = (objs <- py_iter json_obj ;;
     ' (wb, t_content) <-
       _write_report_policies sort_obj_str "MAPS_Policies" 6 objs new_report
         toc_header ;;
     Ok (mk_report wb "MAPS_Policies" t_content toc_widths report, EXIT_STATUS_OK)).
Proof. reflexivity. Qed.

(** X13.  What is not a list of policy dictionaries stops the report: a
    top level that cannot be iterated raises the error of the iteration, and
    a first element that is not a dictionary raises [AttributeError]; so
    does an export whose top level is a non-empty JSON object, whose keys
    are then taken for policies. *)
Theorem write_report_root_shape :
  forall (report : string),
    (forall (json_obj : value) (e : error),
        py_iter json_obj = Raise e ->
        _write_report sort_obj_str new_report EXIT_STATUS_OK json_obj report
        = Raise e) /\
    (forall (json_obj o : value) (rest : list value),
        py_iter json_obj = Ok (o :: rest) ->
        is_dict o = false ->
        _write_report sort_obj_str new_report EXIT_STATUS_OK json_obj report
        = Raise AttributeError) /\
    (forall (k : string) (v : value) (d : dict),
        _write_report sort_obj_str new_report EXIT_STATUS_OK
          (VDict ((k, v) :: d)) report
        = Raise AttributeError).
Proof.
  intros report.
  assert (G : forall json_obj o rest,
             py_iter json_obj = Ok (o :: rest) -> is_dict o = false ->
             _write_report sort_obj_str new_report EXIT_STATUS_OK json_obj report
             = Raise AttributeError).
  { intros json_obj o rest Hi Ho. rewrite write_report_unfold, Hi.
    cbn [bind _write_report_policies]. unfold _write_report_policy.
    destruct o; try discriminate; reflexivity. }
  split; [|split].
  - intros json_obj e Hi. now rewrite write_report_unfold, Hi.
  - exact G.
  - intros k v d. apply (G _ (VStr k) (map (fun kv => VStr (fst kv)) d));
      reflexivity.
Qed.

Lemma write_report_sub_hdr_appends (obj : value) :
  forall (hdrs : dict) (t_content t_content' : list dict),
    _write_report_sub_hdr hdrs obj t_content = Ok t_content' ->
    exists extra, t_content' = (t_content ++ extra)%list.
Proof.
  induction hdrs as [|[k v] hdrs IH]; intros t t'; cbn [_write_report_sub_hdr].
  - intros [= <-]. exists []. now rewrite app_nil_r.
  - intros H. apply bind_inv in H. destruct H as [buf [_ H]].
    apply bind_inv in H. destruct H as [da [_ H]].
    apply IH in H. destruct H as [extra ->]. rewrite <- app_assoc.
    eexists. reflexivity.
Qed.

Lemma write_report_categories_appends (tc : string) (max_cols : Z) :
  forall (its : dict) (st st' : cat_state),
    _write_report_categories sort_obj_str tc max_cols its st = Ok st' ->
    exists rows, st_t_content st' = (st_t_content st ++ rows)%list.
Proof.
  induction its as [|[k1 v1] its IH]; intros st st'; cbn [_write_report_categories].
  - intros [= <-]. exists []. now rewrite app_nil_r.
  - intros H. apply bind_inv in H. destruct H as [st1 [Hstep H]].
    apply write_report_category_ok in Hstep.
    destruct Hstep as (name & title & sorted_l & wb & _ & _ & _ & ->).
    apply IH in H. destruct H as [rows ->]. cbn [st_t_content].
    rewrite <- app_assoc. eexists. reflexivity.
Qed.

Lemma write_report_policies_append (tc : string) (max_cols : Z) :
  forall (objs : list value) (wb wb' : workbook) (t_content t_content' : list dict),
    _write_report_policies sort_obj_str tc max_cols objs wb t_content
    = Ok (wb', t_content') ->
    (exists added, wb' = (added ++ wb)%list) /\
    (exists rows, t_content' = (t_content ++ rows)%list).
Proof.
  induction objs as [|obj objs IH]; intros wb wb' t t'; cbn [_write_report_policies].
  - intros [= <- <-]. split; [now exists [] | exists []; now rewrite app_nil_r].
  - intros H. apply bind_inv in H. destruct H as [[wb0 t0] [Hp H]].
    apply IH in H. destruct H as [[added ->] [rows ->]].
    split.
    + apply (policy_sheets_front_only sort_obj_str) in Hp. destruct Hp as [added0 ->].
      exists (added ++ added0)%list. now rewrite <- app_assoc.
    + unfold _write_report_policy in Hp.
      apply bind_inv in Hp. destruct Hp as [t1 [Hsub Hp]].
      apply bind_inv in Hp. destruct Hp as [c [_ Hp]].
      apply bind_inv in Hp. destruct Hp as [its [_ Hp]].
      apply bind_inv in Hp. destruct Hp as [st [Hcats Hp]].
      apply bind_inv in Hp. destruct Hp as [wb1 [_ Hp]].
      injection Hp as _ <-.
      apply write_report_sub_hdr_appends in Hsub. destruct Hsub as [extra ->].
      apply write_report_categories_appends in Hcats. destruct Hcats as [rows0 Hr].
      cbn [st_t_content] in Hr. rewrite Hr.
      rewrite <- !app_assoc. eexists. reflexivity.
Qed.

End ReportShape.

Lemma write_report_root_shape_witness :
  _write_report sort_in_order [] 0
    (VDict [("policies", VList [])]) "maps.xlsx" = Raise AttributeError /\
  _write_report sort_in_order [] 0 (VInt 7) "maps.xlsx" = Raise TypeError.
Proof.
  split.
  - exact (proj1 (proj2 (write_report_root_shape sort_in_order [] 0 "maps.xlsx"))
             (VDict [("policies", VList [])]) (VStr "policies") [] eq_refl eq_refl).
  - exact (proj1 (write_report_root_shape sort_in_order [] 0 "maps.xlsx")
             (VInt 7) TypeError eq_refl).
Defined.

(** X14.  A report that is written has the success status, the name it
    was asked under, the sheets of the new workbook last and unchanged, and
    a table of contents that starts with the title and the six column
    headers; an export without policies is written, with no sheet added and
    nothing below the headers. *)
Theorem write_report_result_shape :
  forall (sort_obj_str : value -> list string -> exc (list value))
         (new_report : workbook) (EXIT_STATUS_OK : Z)
         (json_obj : value) (report : string),
    (py_iter json_obj = Ok [] ->
     _write_report sort_obj_str new_report EXIT_STATUS_OK json_obj report
     = Ok (mk_report new_report "MAPS_Policies" toc_header toc_widths report,
           EXIT_STATUS_OK)) /\
    (forall (rep : report_file) (status : Z),
        _write_report sort_obj_str new_report EXIT_STATUS_OK json_obj report
        = Ok (rep, status) ->
        status = EXIT_STATUS_OK /\
        rep_name rep = report /\
        rep_tc_page rep = "MAPS_Policies" /\
        rep_tc_widths rep = toc_widths /\
        (exists added, rep_wb rep = (added ++ new_report)%list) /\
        (exists rows, rep_t_content rep = (toc_header ++ rows)%list)).
Proof.
  intros sort_obj_str new_report EXIT_STATUS_OK json_obj report. split.
  - intros Hi. now rewrite write_report_unfold, Hi.
  - intros rep status H. rewrite write_report_unfold in H.
    apply bind_inv in H. destruct H as [objs [_ H]].
    apply bind_inv in H. destruct H as [[wb t] [Hrun H]].
    injection H as <- <-. cbn [rep_name rep_tc_page rep_tc_widths rep_wb rep_t_content].
    apply write_report_policies_append in Hrun. destruct Hrun as [Hwb Ht].
    repeat split; assumption.
Qed.

Lemma write_report_result_shape_witness :
  _write_report sort_in_order [] 0 (VList []) "maps.xlsx"
  = Ok (mk_report [] "MAPS_Policies" toc_header toc_widths "maps.xlsx", 0).
Proof.
  exact (proj1 (write_report_result_shape sort_in_order [] 0 (VList []) "maps.xlsx")
               eq_refl).
Defined.

(** X15.  In the table of contents a policy shows its six attributes in
    the order of the columns: a boolean as the checkmark or the empty string,
    a string as it is, and anything else as the empty string, be it a
    numeric FID, a list of tags or an attribute the policy does not have. *)
Theorem toc_policy_attributes :
  forall (d : dict) (t_content : list dict),
    exists extra : list dict,
      _write_report_sub_hdr _tc_headers (VDict d) t_content
      = Ok (t_content ++ extra)%list /\
      map (dict_get "disp") extra
      = map (fun k => toc_disp (dict_get k d))
            ["policyName"; "virtualSwitchId"; "tags"; "description";
             "isActive"; "isCustom"] /\
      Forall (fun row => dict_get "hyper" row = VNone) extra.
Proof.
  intros d t. eexists. split; [|split].
  - cbn [_write_report_sub_hdr _tc_headers attr_get bind subscript _tc_header
         getitem lookup String.eqb Ascii.eqb Bool.eqb].
    rewrite <- !app_assoc. cbn [app]. reflexivity.
  - reflexivity.
  - repeat constructor.
Qed.

(** ** Further properties of the command line *)

(** X16.  Without [-o], for an input name that resolves to a base name
    without [".json"] followed by [".json"]: when the dump of that file
    cannot be read [pseudo_main] returns the error status and writes
    nothing; otherwise it is [_write_report] on the dump, under the base
    name followed by [".xlsx"]. *)
Theorem pseudo_main_reads_and_writes :
  forall (full_file_name : string -> string -> string)
         (read_dump : string -> value)
         (sort_obj_str : value -> list string -> exc (list value))
         (new_report : workbook) (EXIT_STATUS_OK EXIT_STATUS_ERROR : Z)
         (a : args) (base : string),
    arg_o a = None ->
    full_file_name (arg_i a) ".json" = (base ++ ".json")%string ->
    occurs ".json" base = false ->
    let r := snd (pseudo_main full_file_name read_dump sort_obj_str new_report
                    EXIT_STATUS_OK EXIT_STATUS_ERROR a) in
    (read_dump (base ++ ".json") = VNone -> r = Ok (None, EXIT_STATUS_ERROR)) /\
    (is_None (read_dump (base ++ ".json")) = false ->
     r = (' (rep, status) <-
            _write_report sort_obj_str new_report EXIT_STATUS_OK
              (read_dump (base ++ ".json")) (base ++ ".xlsx") ;;
          Ok (Some rep, status))).
Proof.
  intros full_file_name read_dump sort_obj_str new_report EXIT_STATUS_OK
         EXIT_STATUS_ERROR a base Ho Hi Hb r.
  subst r. unfold pseudo_main, _get_input. cbn [_DEBUG]. rewrite Ho, Hi.
  rewrite (replace_json_suffix base Hb).
  split.
  - intros ->. reflexivity.
  - intros ->. reflexivity.
Qed.

Lemma pseudo_main_reads_and_writes_witness :
  snd (pseudo_main (fun f e => f ++ e)%string (fun _ => VNone) sort_in_order [] 0 2
         (JsonMapsToExcel.mk_args "maps/policy_48" None None true))
  = Ok (None, 2).
Proof.
  exact (proj1 (pseudo_main_reads_and_writes
                  (fun f e => f ++ e)%string (fun _ => VNone) sort_in_order [] 0 2
                  (JsonMapsToExcel.mk_args "maps/policy_48" None None true)
                  "maps/policy_48" eq_refl eq_refl eq_refl) eq_refl).
Defined.

(** ** Further properties of the login probe *)

(** X17.  Whatever the server answers, the probe opens the log first, also
    under [-nl]; calls login exactly once, with the security mode ["none"]
    when [-s] is not given; calls logout exactly when the login succeeded;
    and closes the log only when both login and logout succeeded. *)
Theorem login_probe_calls :
  forall (obj : Type) (login : string -> string -> string -> string -> obj)
         (logout : obj -> obj) (is_error : obj -> bool)
         (formatted_error_msg : obj -> string)
         (mask_ip_addr : string -> bool -> string)
         (EXIT_STATUS_OK EXIT_STATUS_API_ERROR : Z) (a : LoginTest.args),
    let sec := match LoginTest.arg_s a with None => "none" | Some s => s end in
    let session :=
      login (LoginTest.arg_id a) (LoginTest.arg_pw a) (LoginTest.arg_ip a) sec in
    let t := fst (LoginTest.main obj login logout is_error formatted_error_msg
                    mask_ip_addr EXIT_STATUS_OK EXIT_STATUS_API_ERROR a) in
    hd_error t = Some (LoginTest.open_log (LoginTest.arg_log a)) /\
    filter is_call_login t
    = [LoginTest.call_login (LoginTest.arg_id a) (LoginTest.arg_pw a)
         (LoginTest.arg_ip a) sec] /\
    filter is_call_logout t
    = (if is_error session then [] else [LoginTest.call_logout session]) /\
    existsb is_close_log t
    = negb (is_error session) && negb (is_error (logout session)).
Proof.
  intros obj login logout is_error formatted_error_msg mask_ip_addr
         EXIT_STATUS_OK EXIT_STATUS_API_ERROR a sec session t.
  subst t. unfold LoginTest.main, LoginTest.psuedo_main. cbn.
  fold sec. fold session.
  destruct (is_error session); [cbn; repeat split|].
  destruct (is_error (logout session)); cbn; repeat split.
Qed.

(** ** Further properties of the conversion functions *)

Lemma strings_of_ok (l : list value) :
  match strings_of l with
  | Ok _ => forallb is_str l = true
  | Raise e => forallb is_str l = false /\ e = TypeError
  end.
Proof.
  induction l as [|v l IH]; cbn [strings_of forallb]; [reflexivity|].
  destruct v; cbn [is_str andb]; try (split; reflexivity).
  destruct (strings_of l); cbn [bind]; exact IH.
Qed.

(** X18.  On a list, [_generic_list] succeeds exactly when every element
    is a string, and otherwise raises [TypeError]: it is the only input on
    which the conversion can fail. *)
Theorem generic_list_raises_on_mixed_list :
  forall v : value,
    is_ok (_generic_list v)
    = match v with VList l => forallb is_str l | _ => true end /\
    (forall e, _generic_list v = Raise e ->
               e = TypeError /\ exists l, v = VList l /\ forallb is_str l = false).
Proof.
  intros v. destruct v; try (split; [reflexivity | discriminate]).
  unfold _generic_list, str_join.
  pose proof (strings_of_ok l) as H.
  destruct (strings_of l) as [ss|e']; cbn [bind is_ok].
  - split; [now rewrite H | discriminate].
  - destruct H as [H ->]. split; [now rewrite H|].
    intros e [= <-]. split; [reflexivity|]. now exists l.
Qed.

Lemma generic_list_raises_on_mixed_list_witness :
  TypeError = TypeError /\
  exists l, VList [VStr "10"; VInt 20] = VList l /\ forallb is_str l = false.
Proof.
  exact (proj2 (generic_list_raises_on_mixed_list (VList [VStr "10"; VInt 20]))
               TypeError eq_refl).
Defined.

(** ** The errors of the schema flattener *)




